(** * IPA-like phone labels to ARPABET: a model of [ipa_to_arpabet.py]

    The development follows the script top to bottom: Python strings and the
    few [str] methods the script calls, the two constant tables, the phone
    mapper [ipa_phone_to_arpabet], the JSON document converter
    [convert_json_obj], and the validation of [--default_stress] in [main].
    The properties of the mapper and of the converter come after the
    definitions. *)

From Stdlib Require Import ZArith List String Ascii Bool Lia Btauto DecimalPos.
Import ListNotations.
Local Open Scope Z_scope.

(** ** Python strings

    A Python [str] is a sequence of Unicode code points; it is modelled as a
    list of integers.  String literals of the script are written as Rocq
    strings (UTF-8 bytes in the file) and decoded by [py]. *)

Definition pystr := list Z.

Fixpoint utf8_decode (s : string) (acc : Z) (pending : nat) : pystr :=
  match s with
  | EmptyString => []
  | String a r =>
      let b := Z.of_N (N_of_ascii a) in
      match pending with
      | O =>
          if b <? 0x80 then b :: utf8_decode r 0 0
          else if b <? 0xE0 then utf8_decode r (b - 0xC0) 1
          else if b <? 0xF0 then utf8_decode r (b - 0xE0) 2
          else utf8_decode r (b - 0xF0) 3
      | S O => (acc * 64 + (b - 0x80)) :: utf8_decode r 0 0
      | S n => utf8_decode r (acc * 64 + (b - 0x80)) n
      end
  end.

Definition py (s : string) : pystr := utf8_decode s 0 0.

(** [a == b] on strings. *)
Fixpoint str_eqb (a b : pystr) : bool :=
  match a, b with
  | [], [] => true
  | x :: a', y :: b' => (x =? y) && str_eqb a' b'
  | _, _ => false
  end.

(** [s in {...}] for a set (or tuple) of strings. *)
Definition str_in (s : pystr) (set : list pystr) : bool :=
  existsb (str_eqb s) set.

(** [d.get(k)] on a dict with string keys, kept as the list of its items in
    insertion order. *)
Fixpoint dict_get {V : Type} (k : pystr) (d : list (pystr * V)) : option V :=
  match d with
  | [] => None
  | (k', v) :: rest => if str_eqb k k' then Some v else dict_get k rest
  end.

(** *** The Unicode character database

    [str.strip], [str.upper] and [str.lower] are driven by the Unicode
    character database of the interpreter.  The tables below are those of
    Unicode 14.0 (CPython 3.11).  The case mappings are listed for the code
    points above U+007F; on the ASCII range they are computed, as CPython
    does.
    - [whitespace]: the code points for which [str.isspace] holds.
    - [upper_runs], [lower_runs]: [(first, last, step, delta)] stands for the
      code points [first, first + step, ..., last], each mapped to itself
      plus [delta].
    - [upper_multi], [lower_multi]: code points whose full case mapping is
      several code points long.
    - [cased_ranges], [case_ignorable_ranges]: the properties Cased and
      Case_Ignorable, which decide the lowercase form of a capital sigma.
    - [decimal_zeros]: the digit zero of every decimal digit system; the
      nine code points after each are its digits one to nine. *)

Module UCD.

Definition whitespace : list Z :=
  [
    0x9; 0xA; 0xB; 0xC; 0xD; 0x1C; 0x1D; 0x1E; 0x1F; 0x20; 0x85; 0xA0; 0x1680;
    0x2000; 0x2001; 0x2002; 0x2003; 0x2004; 0x2005; 0x2006; 0x2007; 0x2008;
    0x2009; 0x200A; 0x2028; 0x2029; 0x202F; 0x205F; 0x3000
  ].

Definition upper_runs : list (Z * Z * Z * Z) :=
  [
    (0xB5, 0xB5, 1, 743); (0xE0, 0xF6, 1, (-32)); (0xF8, 0xFE, 1, (-32));
    (0xFF, 0xFF, 1, 121); (0x101, 0x12F, 2, (-1)); (0x131, 0x131, 1, (-232));
    (0x133, 0x137, 2, (-1)); (0x13A, 0x148, 2, (-1)); (0x14B, 0x177, 2, (-1));
    (0x17A, 0x17E, 2, (-1)); (0x17F, 0x17F, 1, (-300));
    (0x180, 0x180, 1, 195); (0x183, 0x185, 2, (-1)); (0x188, 0x188, 1, (-1));
    (0x18C, 0x18C, 1, (-1)); (0x192, 0x192, 1, (-1)); (0x195, 0x195, 1, 97);
    (0x199, 0x199, 1, (-1)); (0x19A, 0x19A, 1, 163); (0x19E, 0x19E, 1, 130);
    (0x1A1, 0x1A5, 2, (-1)); (0x1A8, 0x1A8, 1, (-1)); (0x1AD, 0x1AD, 1, (-1));
    (0x1B0, 0x1B0, 1, (-1)); (0x1B4, 0x1B6, 2, (-1)); (0x1B9, 0x1B9, 1, (-1));
    (0x1BD, 0x1BD, 1, (-1)); (0x1BF, 0x1BF, 1, 56); (0x1C5, 0x1C5, 1, (-1));
    (0x1C6, 0x1C6, 1, (-2)); (0x1C8, 0x1C8, 1, (-1)); (0x1C9, 0x1C9, 1, (-2));
    (0x1CB, 0x1CB, 1, (-1)); (0x1CC, 0x1CC, 1, (-2)); (0x1CE, 0x1DC, 2, (-1));
    (0x1DD, 0x1DD, 1, (-79)); (0x1DF, 0x1EF, 2, (-1));
    (0x1F2, 0x1F2, 1, (-1)); (0x1F3, 0x1F3, 1, (-2)); (0x1F5, 0x1F5, 1, (-1));
    (0x1F9, 0x21F, 2, (-1)); (0x223, 0x233, 2, (-1)); (0x23C, 0x23C, 1, (-1));
    (0x23F, 0x240, 1, 10815); (0x242, 0x242, 1, (-1));
    (0x247, 0x24F, 2, (-1)); (0x250, 0x250, 1, 10783);
    (0x251, 0x251, 1, 10780); (0x252, 0x252, 1, 10782);
    (0x253, 0x253, 1, (-210)); (0x254, 0x254, 1, (-206));
    (0x256, 0x257, 1, (-205)); (0x259, 0x259, 1, (-202));
    (0x25B, 0x25B, 1, (-203)); (0x25C, 0x25C, 1, 42319);
    (0x260, 0x260, 1, (-205)); (0x261, 0x261, 1, 42315);
    (0x263, 0x263, 1, (-207)); (0x265, 0x265, 1, 42280);
    (0x266, 0x266, 1, 42308); (0x268, 0x268, 1, (-209));
    (0x269, 0x269, 1, (-211)); (0x26A, 0x26A, 1, 42308);
    (0x26B, 0x26B, 1, 10743); (0x26C, 0x26C, 1, 42305);
    (0x26F, 0x26F, 1, (-211)); (0x271, 0x271, 1, 10749);
    (0x272, 0x272, 1, (-213)); (0x275, 0x275, 1, (-214));
    (0x27D, 0x27D, 1, 10727); (0x280, 0x280, 1, (-218));
    (0x282, 0x282, 1, 42307); (0x283, 0x283, 1, (-218));
    (0x287, 0x287, 1, 42282); (0x288, 0x288, 1, (-218));
    (0x289, 0x289, 1, (-69)); (0x28A, 0x28B, 1, (-217));
    (0x28C, 0x28C, 1, (-71)); (0x292, 0x292, 1, (-219));
    (0x29D, 0x29D, 1, 42261); (0x29E, 0x29E, 1, 42258); (0x345, 0x345, 1, 84);
    (0x371, 0x373, 2, (-1)); (0x377, 0x377, 1, (-1)); (0x37B, 0x37D, 1, 130);
    (0x3AC, 0x3AC, 1, (-38)); (0x3AD, 0x3AF, 1, (-37));
    (0x3B1, 0x3C1, 1, (-32)); (0x3C2, 0x3C2, 1, (-31));
    (0x3C3, 0x3CB, 1, (-32)); (0x3CC, 0x3CC, 1, (-64));
    (0x3CD, 0x3CE, 1, (-63)); (0x3D0, 0x3D0, 1, (-62));
    (0x3D1, 0x3D1, 1, (-57)); (0x3D5, 0x3D5, 1, (-47));
    (0x3D6, 0x3D6, 1, (-54)); (0x3D7, 0x3D7, 1, (-8));
    (0x3D9, 0x3EF, 2, (-1)); (0x3F0, 0x3F0, 1, (-86));
    (0x3F1, 0x3F1, 1, (-80)); (0x3F2, 0x3F2, 1, 7); (0x3F3, 0x3F3, 1, (-116));
    (0x3F5, 0x3F5, 1, (-96)); (0x3F8, 0x3F8, 1, (-1));
    (0x3FB, 0x3FB, 1, (-1)); (0x430, 0x44F, 1, (-32));
    (0x450, 0x45F, 1, (-80)); (0x461, 0x481, 2, (-1));
    (0x48B, 0x4BF, 2, (-1)); (0x4C2, 0x4CE, 2, (-1));
    (0x4CF, 0x4CF, 1, (-15)); (0x4D1, 0x52F, 2, (-1));
    (0x561, 0x586, 1, (-48)); (0x10D0, 0x10FA, 1, 3008);
    (0x10FD, 0x10FF, 1, 3008); (0x13F8, 0x13FD, 1, (-8));
    (0x1C80, 0x1C80, 1, (-6254)); (0x1C81, 0x1C81, 1, (-6253));
    (0x1C82, 0x1C82, 1, (-6244)); (0x1C83, 0x1C84, 1, (-6242));
    (0x1C85, 0x1C85, 1, (-6243)); (0x1C86, 0x1C86, 1, (-6236));
    (0x1C87, 0x1C87, 1, (-6181)); (0x1C88, 0x1C88, 1, 35266);
    (0x1D79, 0x1D79, 1, 35332); (0x1D7D, 0x1D7D, 1, 3814);
    (0x1D8E, 0x1D8E, 1, 35384); (0x1E01, 0x1E95, 2, (-1));
    (0x1E9B, 0x1E9B, 1, (-59)); (0x1EA1, 0x1EFF, 2, (-1));
    (0x1F00, 0x1F07, 1, 8); (0x1F10, 0x1F15, 1, 8); (0x1F20, 0x1F27, 1, 8);
    (0x1F30, 0x1F37, 1, 8); (0x1F40, 0x1F45, 1, 8); (0x1F51, 0x1F57, 2, 8);
    (0x1F60, 0x1F67, 1, 8); (0x1F70, 0x1F71, 1, 74); (0x1F72, 0x1F75, 1, 86);
    (0x1F76, 0x1F77, 1, 100); (0x1F78, 0x1F79, 1, 128);
    (0x1F7A, 0x1F7B, 1, 112); (0x1F7C, 0x1F7D, 1, 126);
    (0x1FB0, 0x1FB1, 1, 8); (0x1FBE, 0x1FBE, 1, (-7205));
    (0x1FD0, 0x1FD1, 1, 8); (0x1FE0, 0x1FE1, 1, 8); (0x1FE5, 0x1FE5, 1, 7);
    (0x214E, 0x214E, 1, (-28)); (0x2170, 0x217F, 1, (-16));
    (0x2184, 0x2184, 1, (-1)); (0x24D0, 0x24E9, 1, (-26));
    (0x2C30, 0x2C5F, 1, (-48)); (0x2C61, 0x2C61, 1, (-1));
    (0x2C65, 0x2C65, 1, (-10795)); (0x2C66, 0x2C66, 1, (-10792));
    (0x2C68, 0x2C6C, 2, (-1)); (0x2C73, 0x2C73, 1, (-1));
    (0x2C76, 0x2C76, 1, (-1)); (0x2C81, 0x2CE3, 2, (-1));
    (0x2CEC, 0x2CEE, 2, (-1)); (0x2CF3, 0x2CF3, 1, (-1));
    (0x2D00, 0x2D25, 1, (-7264)); (0x2D27, 0x2D27, 1, (-7264));
    (0x2D2D, 0x2D2D, 1, (-7264)); (0xA641, 0xA66D, 2, (-1));
    (0xA681, 0xA69B, 2, (-1)); (0xA723, 0xA72F, 2, (-1));
    (0xA733, 0xA76F, 2, (-1)); (0xA77A, 0xA77C, 2, (-1));
    (0xA77F, 0xA787, 2, (-1)); (0xA78C, 0xA78C, 1, (-1));
    (0xA791, 0xA793, 2, (-1)); (0xA794, 0xA794, 1, 48);
    (0xA797, 0xA7A9, 2, (-1)); (0xA7B5, 0xA7C3, 2, (-1));
    (0xA7C8, 0xA7CA, 2, (-1)); (0xA7D1, 0xA7D1, 1, (-1));
    (0xA7D7, 0xA7D9, 2, (-1)); (0xA7F6, 0xA7F6, 1, (-1));
    (0xAB53, 0xAB53, 1, (-928)); (0xAB70, 0xABBF, 1, (-38864));
    (0xFF41, 0xFF5A, 1, (-32)); (0x10428, 0x1044F, 1, (-40));
    (0x104D8, 0x104FB, 1, (-40)); (0x10597, 0x105A1, 1, (-39));
    (0x105A3, 0x105B1, 1, (-39)); (0x105B3, 0x105B9, 1, (-39));
    (0x105BB, 0x105BC, 1, (-39)); (0x10CC0, 0x10CF2, 1, (-64));
    (0x118C0, 0x118DF, 1, (-32)); (0x16E60, 0x16E7F, 1, (-32));
    (0x1E922, 0x1E943, 1, (-34))
  ].

Definition upper_multi : list (Z * list Z) :=
  [
    (0xDF, [0x53; 0x53]); (0x149, [0x2BC; 0x4E]); (0x1F0, [0x4A; 0x30C]);
    (0x390, [0x399; 0x308; 0x301]); (0x3B0, [0x3A5; 0x308; 0x301]);
    (0x587, [0x535; 0x552]); (0x1E96, [0x48; 0x331]); (0x1E97, [0x54; 0x308]);
    (0x1E98, [0x57; 0x30A]); (0x1E99, [0x59; 0x30A]); (0x1E9A, [0x41; 0x2BE]);
    (0x1F50, [0x3A5; 0x313]); (0x1F52, [0x3A5; 0x313; 0x300]);
    (0x1F54, [0x3A5; 0x313; 0x301]); (0x1F56, [0x3A5; 0x313; 0x342]);
    (0x1F80, [0x1F08; 0x399]); (0x1F81, [0x1F09; 0x399]);
    (0x1F82, [0x1F0A; 0x399]); (0x1F83, [0x1F0B; 0x399]);
    (0x1F84, [0x1F0C; 0x399]); (0x1F85, [0x1F0D; 0x399]);
    (0x1F86, [0x1F0E; 0x399]); (0x1F87, [0x1F0F; 0x399]);
    (0x1F88, [0x1F08; 0x399]); (0x1F89, [0x1F09; 0x399]);
    (0x1F8A, [0x1F0A; 0x399]); (0x1F8B, [0x1F0B; 0x399]);
    (0x1F8C, [0x1F0C; 0x399]); (0x1F8D, [0x1F0D; 0x399]);
    (0x1F8E, [0x1F0E; 0x399]); (0x1F8F, [0x1F0F; 0x399]);
    (0x1F90, [0x1F28; 0x399]); (0x1F91, [0x1F29; 0x399]);
    (0x1F92, [0x1F2A; 0x399]); (0x1F93, [0x1F2B; 0x399]);
    (0x1F94, [0x1F2C; 0x399]); (0x1F95, [0x1F2D; 0x399]);
    (0x1F96, [0x1F2E; 0x399]); (0x1F97, [0x1F2F; 0x399]);
    (0x1F98, [0x1F28; 0x399]); (0x1F99, [0x1F29; 0x399]);
    (0x1F9A, [0x1F2A; 0x399]); (0x1F9B, [0x1F2B; 0x399]);
    (0x1F9C, [0x1F2C; 0x399]); (0x1F9D, [0x1F2D; 0x399]);
    (0x1F9E, [0x1F2E; 0x399]); (0x1F9F, [0x1F2F; 0x399]);
    (0x1FA0, [0x1F68; 0x399]); (0x1FA1, [0x1F69; 0x399]);
    (0x1FA2, [0x1F6A; 0x399]); (0x1FA3, [0x1F6B; 0x399]);
    (0x1FA4, [0x1F6C; 0x399]); (0x1FA5, [0x1F6D; 0x399]);
    (0x1FA6, [0x1F6E; 0x399]); (0x1FA7, [0x1F6F; 0x399]);
    (0x1FA8, [0x1F68; 0x399]); (0x1FA9, [0x1F69; 0x399]);
    (0x1FAA, [0x1F6A; 0x399]); (0x1FAB, [0x1F6B; 0x399]);
    (0x1FAC, [0x1F6C; 0x399]); (0x1FAD, [0x1F6D; 0x399]);
    (0x1FAE, [0x1F6E; 0x399]); (0x1FAF, [0x1F6F; 0x399]);
    (0x1FB2, [0x1FBA; 0x399]); (0x1FB3, [0x391; 0x399]);
    (0x1FB4, [0x386; 0x399]); (0x1FB6, [0x391; 0x342]);
    (0x1FB7, [0x391; 0x342; 0x399]); (0x1FBC, [0x391; 0x399]);
    (0x1FC2, [0x1FCA; 0x399]); (0x1FC3, [0x397; 0x399]);
    (0x1FC4, [0x389; 0x399]); (0x1FC6, [0x397; 0x342]);
    (0x1FC7, [0x397; 0x342; 0x399]); (0x1FCC, [0x397; 0x399]);
    (0x1FD2, [0x399; 0x308; 0x300]); (0x1FD3, [0x399; 0x308; 0x301]);
    (0x1FD6, [0x399; 0x342]); (0x1FD7, [0x399; 0x308; 0x342]);
    (0x1FE2, [0x3A5; 0x308; 0x300]); (0x1FE3, [0x3A5; 0x308; 0x301]);
    (0x1FE4, [0x3A1; 0x313]); (0x1FE6, [0x3A5; 0x342]);
    (0x1FE7, [0x3A5; 0x308; 0x342]); (0x1FF2, [0x1FFA; 0x399]);
    (0x1FF3, [0x3A9; 0x399]); (0x1FF4, [0x38F; 0x399]);
    (0x1FF6, [0x3A9; 0x342]); (0x1FF7, [0x3A9; 0x342; 0x399]);
    (0x1FFC, [0x3A9; 0x399]); (0xFB00, [0x46; 0x46]); (0xFB01, [0x46; 0x49]);
    (0xFB02, [0x46; 0x4C]); (0xFB03, [0x46; 0x46; 0x49]);
    (0xFB04, [0x46; 0x46; 0x4C]); (0xFB05, [0x53; 0x54]);
    (0xFB06, [0x53; 0x54]); (0xFB13, [0x544; 0x546]);
    (0xFB14, [0x544; 0x535]); (0xFB15, [0x544; 0x53B]);
    (0xFB16, [0x54E; 0x546]); (0xFB17, [0x544; 0x53D])
  ].

Definition lower_runs : list (Z * Z * Z * Z) :=
  [
    (0xC0, 0xD6, 1, 32); (0xD8, 0xDE, 1, 32); (0x100, 0x12E, 2, 1);
    (0x132, 0x136, 2, 1); (0x139, 0x147, 2, 1); (0x14A, 0x176, 2, 1);
    (0x178, 0x178, 1, (-121)); (0x179, 0x17D, 2, 1); (0x181, 0x181, 1, 210);
    (0x182, 0x184, 2, 1); (0x186, 0x186, 1, 206); (0x187, 0x187, 1, 1);
    (0x189, 0x18A, 1, 205); (0x18B, 0x18B, 1, 1); (0x18E, 0x18E, 1, 79);
    (0x18F, 0x18F, 1, 202); (0x190, 0x190, 1, 203); (0x191, 0x191, 1, 1);
    (0x193, 0x193, 1, 205); (0x194, 0x194, 1, 207); (0x196, 0x196, 1, 211);
    (0x197, 0x197, 1, 209); (0x198, 0x198, 1, 1); (0x19C, 0x19C, 1, 211);
    (0x19D, 0x19D, 1, 213); (0x19F, 0x19F, 1, 214); (0x1A0, 0x1A4, 2, 1);
    (0x1A6, 0x1A6, 1, 218); (0x1A7, 0x1A7, 1, 1); (0x1A9, 0x1A9, 1, 218);
    (0x1AC, 0x1AC, 1, 1); (0x1AE, 0x1AE, 1, 218); (0x1AF, 0x1AF, 1, 1);
    (0x1B1, 0x1B2, 1, 217); (0x1B3, 0x1B5, 2, 1); (0x1B7, 0x1B7, 1, 219);
    (0x1B8, 0x1B8, 1, 1); (0x1BC, 0x1BC, 1, 1); (0x1C4, 0x1C4, 1, 2);
    (0x1C5, 0x1C5, 1, 1); (0x1C7, 0x1C7, 1, 2); (0x1C8, 0x1C8, 1, 1);
    (0x1CA, 0x1CA, 1, 2); (0x1CB, 0x1DB, 2, 1); (0x1DE, 0x1EE, 2, 1);
    (0x1F1, 0x1F1, 1, 2); (0x1F2, 0x1F4, 2, 1); (0x1F6, 0x1F6, 1, (-97));
    (0x1F7, 0x1F7, 1, (-56)); (0x1F8, 0x21E, 2, 1); (0x220, 0x220, 1, (-130));
    (0x222, 0x232, 2, 1); (0x23A, 0x23A, 1, 10795); (0x23B, 0x23B, 1, 1);
    (0x23D, 0x23D, 1, (-163)); (0x23E, 0x23E, 1, 10792); (0x241, 0x241, 1, 1);
    (0x243, 0x243, 1, (-195)); (0x244, 0x244, 1, 69); (0x245, 0x245, 1, 71);
    (0x246, 0x24E, 2, 1); (0x370, 0x372, 2, 1); (0x376, 0x376, 1, 1);
    (0x37F, 0x37F, 1, 116); (0x386, 0x386, 1, 38); (0x388, 0x38A, 1, 37);
    (0x38C, 0x38C, 1, 64); (0x38E, 0x38F, 1, 63); (0x391, 0x3A1, 1, 32);
    (0x3A3, 0x3AB, 1, 32); (0x3CF, 0x3CF, 1, 8); (0x3D8, 0x3EE, 2, 1);
    (0x3F4, 0x3F4, 1, (-60)); (0x3F7, 0x3F7, 1, 1); (0x3F9, 0x3F9, 1, (-7));
    (0x3FA, 0x3FA, 1, 1); (0x3FD, 0x3FF, 1, (-130)); (0x400, 0x40F, 1, 80);
    (0x410, 0x42F, 1, 32); (0x460, 0x480, 2, 1); (0x48A, 0x4BE, 2, 1);
    (0x4C0, 0x4C0, 1, 15); (0x4C1, 0x4CD, 2, 1); (0x4D0, 0x52E, 2, 1);
    (0x531, 0x556, 1, 48); (0x10A0, 0x10C5, 1, 7264);
    (0x10C7, 0x10C7, 1, 7264); (0x10CD, 0x10CD, 1, 7264);
    (0x13A0, 0x13EF, 1, 38864); (0x13F0, 0x13F5, 1, 8);
    (0x1C90, 0x1CBA, 1, (-3008)); (0x1CBD, 0x1CBF, 1, (-3008));
    (0x1E00, 0x1E94, 2, 1); (0x1E9E, 0x1E9E, 1, (-7615));
    (0x1EA0, 0x1EFE, 2, 1); (0x1F08, 0x1F0F, 1, (-8));
    (0x1F18, 0x1F1D, 1, (-8)); (0x1F28, 0x1F2F, 1, (-8));
    (0x1F38, 0x1F3F, 1, (-8)); (0x1F48, 0x1F4D, 1, (-8));
    (0x1F59, 0x1F5F, 2, (-8)); (0x1F68, 0x1F6F, 1, (-8));
    (0x1F88, 0x1F8F, 1, (-8)); (0x1F98, 0x1F9F, 1, (-8));
    (0x1FA8, 0x1FAF, 1, (-8)); (0x1FB8, 0x1FB9, 1, (-8));
    (0x1FBA, 0x1FBB, 1, (-74)); (0x1FBC, 0x1FBC, 1, (-9));
    (0x1FC8, 0x1FCB, 1, (-86)); (0x1FCC, 0x1FCC, 1, (-9));
    (0x1FD8, 0x1FD9, 1, (-8)); (0x1FDA, 0x1FDB, 1, (-100));
    (0x1FE8, 0x1FE9, 1, (-8)); (0x1FEA, 0x1FEB, 1, (-112));
    (0x1FEC, 0x1FEC, 1, (-7)); (0x1FF8, 0x1FF9, 1, (-128));
    (0x1FFA, 0x1FFB, 1, (-126)); (0x1FFC, 0x1FFC, 1, (-9));
    (0x2126, 0x2126, 1, (-7517)); (0x212A, 0x212A, 1, (-8383));
    (0x212B, 0x212B, 1, (-8262)); (0x2132, 0x2132, 1, 28);
    (0x2160, 0x216F, 1, 16); (0x2183, 0x2183, 1, 1); (0x24B6, 0x24CF, 1, 26);
    (0x2C00, 0x2C2F, 1, 48); (0x2C60, 0x2C60, 1, 1);
    (0x2C62, 0x2C62, 1, (-10743)); (0x2C63, 0x2C63, 1, (-3814));
    (0x2C64, 0x2C64, 1, (-10727)); (0x2C67, 0x2C6B, 2, 1);
    (0x2C6D, 0x2C6D, 1, (-10780)); (0x2C6E, 0x2C6E, 1, (-10749));
    (0x2C6F, 0x2C6F, 1, (-10783)); (0x2C70, 0x2C70, 1, (-10782));
    (0x2C72, 0x2C72, 1, 1); (0x2C75, 0x2C75, 1, 1);
    (0x2C7E, 0x2C7F, 1, (-10815)); (0x2C80, 0x2CE2, 2, 1);
    (0x2CEB, 0x2CED, 2, 1); (0x2CF2, 0x2CF2, 1, 1); (0xA640, 0xA66C, 2, 1);
    (0xA680, 0xA69A, 2, 1); (0xA722, 0xA72E, 2, 1); (0xA732, 0xA76E, 2, 1);
    (0xA779, 0xA77B, 2, 1); (0xA77D, 0xA77D, 1, (-35332));
    (0xA77E, 0xA786, 2, 1); (0xA78B, 0xA78B, 1, 1);
    (0xA78D, 0xA78D, 1, (-42280)); (0xA790, 0xA792, 2, 1);
    (0xA796, 0xA7A8, 2, 1); (0xA7AA, 0xA7AA, 1, (-42308));
    (0xA7AB, 0xA7AB, 1, (-42319)); (0xA7AC, 0xA7AC, 1, (-42315));
    (0xA7AD, 0xA7AD, 1, (-42305)); (0xA7AE, 0xA7AE, 1, (-42308));
    (0xA7B0, 0xA7B0, 1, (-42258)); (0xA7B1, 0xA7B1, 1, (-42282));
    (0xA7B2, 0xA7B2, 1, (-42261)); (0xA7B3, 0xA7B3, 1, 928);
    (0xA7B4, 0xA7C2, 2, 1); (0xA7C4, 0xA7C4, 1, (-48));
    (0xA7C5, 0xA7C5, 1, (-42307)); (0xA7C6, 0xA7C6, 1, (-35384));
    (0xA7C7, 0xA7C9, 2, 1); (0xA7D0, 0xA7D0, 1, 1); (0xA7D6, 0xA7D8, 2, 1);
    (0xA7F5, 0xA7F5, 1, 1); (0xFF21, 0xFF3A, 1, 32);
    (0x10400, 0x10427, 1, 40); (0x104B0, 0x104D3, 1, 40);
    (0x10570, 0x1057A, 1, 39); (0x1057C, 0x1058A, 1, 39);
    (0x1058C, 0x10592, 1, 39); (0x10594, 0x10595, 1, 39);
    (0x10C80, 0x10CB2, 1, 64); (0x118A0, 0x118BF, 1, 32);
    (0x16E40, 0x16E5F, 1, 32); (0x1E900, 0x1E921, 1, 34)
  ].

Definition lower_multi : list (Z * list Z) :=
  [
    (0x130, [0x69; 0x307])
  ].

Definition cased_ranges : list (Z * Z) :=
  [
    (0x41, 0x5A); (0x61, 0x7A); (0xAA, 0xAA); (0xB5, 0xB5); (0xBA, 0xBA);
    (0xC0, 0xD6); (0xD8, 0xF6); (0xF8, 0x1BA); (0x1BC, 0x1BF); (0x1C4, 0x293);
    (0x295, 0x2B8); (0x2C0, 0x2C1); (0x2E0, 0x2E4); (0x345, 0x345);
    (0x370, 0x373); (0x376, 0x377); (0x37A, 0x37D); (0x37F, 0x37F);
    (0x386, 0x386); (0x388, 0x38A); (0x38C, 0x38C); (0x38E, 0x3A1);
    (0x3A3, 0x3F5); (0x3F7, 0x481); (0x48A, 0x52F); (0x531, 0x556);
    (0x560, 0x588); (0x10A0, 0x10C5); (0x10C7, 0x10C7); (0x10CD, 0x10CD);
    (0x10D0, 0x10FA); (0x10FD, 0x10FF); (0x13A0, 0x13F5); (0x13F8, 0x13FD);
    (0x1C80, 0x1C88); (0x1C90, 0x1CBA); (0x1CBD, 0x1CBF); (0x1D00, 0x1DBF);
    (0x1E00, 0x1F15); (0x1F18, 0x1F1D); (0x1F20, 0x1F45); (0x1F48, 0x1F4D);
    (0x1F50, 0x1F57); (0x1F59, 0x1F59); (0x1F5B, 0x1F5B); (0x1F5D, 0x1F5D);
    (0x1F5F, 0x1F7D); (0x1F80, 0x1FB4); (0x1FB6, 0x1FBC); (0x1FBE, 0x1FBE);
    (0x1FC2, 0x1FC4); (0x1FC6, 0x1FCC); (0x1FD0, 0x1FD3); (0x1FD6, 0x1FDB);
    (0x1FE0, 0x1FEC); (0x1FF2, 0x1FF4); (0x1FF6, 0x1FFC); (0x2071, 0x2071);
    (0x207F, 0x207F); (0x2090, 0x209C); (0x2102, 0x2102); (0x2107, 0x2107);
    (0x210A, 0x2113); (0x2115, 0x2115); (0x2119, 0x211D); (0x2124, 0x2124);
    (0x2126, 0x2126); (0x2128, 0x2128); (0x212A, 0x212D); (0x212F, 0x2134);
    (0x2139, 0x2139); (0x213C, 0x213F); (0x2145, 0x2149); (0x214E, 0x214E);
    (0x2160, 0x217F); (0x2183, 0x2184); (0x24B6, 0x24E9); (0x2C00, 0x2CE4);
    (0x2CEB, 0x2CEE); (0x2CF2, 0x2CF3); (0x2D00, 0x2D25); (0x2D27, 0x2D27);
    (0x2D2D, 0x2D2D); (0xA640, 0xA66D); (0xA680, 0xA69D); (0xA722, 0xA787);
    (0xA78B, 0xA78E); (0xA790, 0xA7CA); (0xA7D0, 0xA7D1); (0xA7D3, 0xA7D3);
    (0xA7D5, 0xA7D9); (0xA7F5, 0xA7F6); (0xA7F8, 0xA7FA); (0xAB30, 0xAB5A);
    (0xAB5C, 0xAB68); (0xAB70, 0xABBF); (0xFB00, 0xFB06); (0xFB13, 0xFB17);
    (0xFF21, 0xFF3A); (0xFF41, 0xFF5A); (0x10400, 0x1044F);
    (0x104B0, 0x104D3); (0x104D8, 0x104FB); (0x10570, 0x1057A);
    (0x1057C, 0x1058A); (0x1058C, 0x10592); (0x10594, 0x10595);
    (0x10597, 0x105A1); (0x105A3, 0x105B1); (0x105B3, 0x105B9);
    (0x105BB, 0x105BC); (0x10780, 0x10780); (0x10783, 0x10785);
    (0x10787, 0x107B0); (0x107B2, 0x107BA); (0x10C80, 0x10CB2);
    (0x10CC0, 0x10CF2); (0x118A0, 0x118DF); (0x16E40, 0x16E7F);
    (0x1D400, 0x1D454); (0x1D456, 0x1D49C); (0x1D49E, 0x1D49F);
    (0x1D4A2, 0x1D4A2); (0x1D4A5, 0x1D4A6); (0x1D4A9, 0x1D4AC);
    (0x1D4AE, 0x1D4B9); (0x1D4BB, 0x1D4BB); (0x1D4BD, 0x1D4C3);
    (0x1D4C5, 0x1D505); (0x1D507, 0x1D50A); (0x1D50D, 0x1D514);
    (0x1D516, 0x1D51C); (0x1D51E, 0x1D539); (0x1D53B, 0x1D53E);
    (0x1D540, 0x1D544); (0x1D546, 0x1D546); (0x1D54A, 0x1D550);
    (0x1D552, 0x1D6A5); (0x1D6A8, 0x1D6C0); (0x1D6C2, 0x1D6DA);
    (0x1D6DC, 0x1D6FA); (0x1D6FC, 0x1D714); (0x1D716, 0x1D734);
    (0x1D736, 0x1D74E); (0x1D750, 0x1D76E); (0x1D770, 0x1D788);
    (0x1D78A, 0x1D7A8); (0x1D7AA, 0x1D7C2); (0x1D7C4, 0x1D7CB);
    (0x1DF00, 0x1DF09); (0x1DF0B, 0x1DF1E); (0x1E900, 0x1E943);
    (0x1F130, 0x1F149); (0x1F150, 0x1F169); (0x1F170, 0x1F189)
  ].

Definition case_ignorable_ranges : list (Z * Z) :=
  [
    (0x27, 0x27); (0x2E, 0x2E); (0x3A, 0x3A); (0x5E, 0x5E); (0x60, 0x60);
    (0xA8, 0xA8); (0xAD, 0xAD); (0xAF, 0xAF); (0xB4, 0xB4); (0xB7, 0xB8);
    (0x2B0, 0x36F); (0x374, 0x375); (0x37A, 0x37A); (0x384, 0x385);
    (0x387, 0x387); (0x483, 0x489); (0x559, 0x559); (0x55F, 0x55F);
    (0x591, 0x5BD); (0x5BF, 0x5BF); (0x5C1, 0x5C2); (0x5C4, 0x5C5);
    (0x5C7, 0x5C7); (0x5F4, 0x5F4); (0x600, 0x605); (0x610, 0x61A);
    (0x61C, 0x61C); (0x640, 0x640); (0x64B, 0x65F); (0x670, 0x670);
    (0x6D6, 0x6DD); (0x6DF, 0x6E8); (0x6EA, 0x6ED); (0x70F, 0x70F);
    (0x711, 0x711); (0x730, 0x74A); (0x7A6, 0x7B0); (0x7EB, 0x7F5);
    (0x7FA, 0x7FA); (0x7FD, 0x7FD); (0x816, 0x82D); (0x859, 0x85B);
    (0x888, 0x888); (0x890, 0x891); (0x898, 0x89F); (0x8C9, 0x902);
    (0x93A, 0x93A); (0x93C, 0x93C); (0x941, 0x948); (0x94D, 0x94D);
    (0x951, 0x957); (0x962, 0x963); (0x971, 0x971); (0x981, 0x981);
    (0x9BC, 0x9BC); (0x9C1, 0x9C4); (0x9CD, 0x9CD); (0x9E2, 0x9E3);
    (0x9FE, 0x9FE); (0xA01, 0xA02); (0xA3C, 0xA3C); (0xA41, 0xA42);
    (0xA47, 0xA48); (0xA4B, 0xA4D); (0xA51, 0xA51); (0xA70, 0xA71);
    (0xA75, 0xA75); (0xA81, 0xA82); (0xABC, 0xABC); (0xAC1, 0xAC5);
    (0xAC7, 0xAC8); (0xACD, 0xACD); (0xAE2, 0xAE3); (0xAFA, 0xAFF);
    (0xB01, 0xB01); (0xB3C, 0xB3C); (0xB3F, 0xB3F); (0xB41, 0xB44);
    (0xB4D, 0xB4D); (0xB55, 0xB56); (0xB62, 0xB63); (0xB82, 0xB82);
    (0xBC0, 0xBC0); (0xBCD, 0xBCD); (0xC00, 0xC00); (0xC04, 0xC04);
    (0xC3C, 0xC3C); (0xC3E, 0xC40); (0xC46, 0xC48); (0xC4A, 0xC4D);
    (0xC55, 0xC56); (0xC62, 0xC63); (0xC81, 0xC81); (0xCBC, 0xCBC);
    (0xCBF, 0xCBF); (0xCC6, 0xCC6); (0xCCC, 0xCCD); (0xCE2, 0xCE3);
    (0xD00, 0xD01); (0xD3B, 0xD3C); (0xD41, 0xD44); (0xD4D, 0xD4D);
    (0xD62, 0xD63); (0xD81, 0xD81); (0xDCA, 0xDCA); (0xDD2, 0xDD4);
    (0xDD6, 0xDD6); (0xE31, 0xE31); (0xE34, 0xE3A); (0xE46, 0xE4E);
    (0xEB1, 0xEB1); (0xEB4, 0xEBC); (0xEC6, 0xEC6); (0xEC8, 0xECD);
    (0xF18, 0xF19); (0xF35, 0xF35); (0xF37, 0xF37); (0xF39, 0xF39);
    (0xF71, 0xF7E); (0xF80, 0xF84); (0xF86, 0xF87); (0xF8D, 0xF97);
    (0xF99, 0xFBC); (0xFC6, 0xFC6); (0x102D, 0x1030); (0x1032, 0x1037);
    (0x1039, 0x103A); (0x103D, 0x103E); (0x1058, 0x1059); (0x105E, 0x1060);
    (0x1071, 0x1074); (0x1082, 0x1082); (0x1085, 0x1086); (0x108D, 0x108D);
    (0x109D, 0x109D); (0x10FC, 0x10FC); (0x135D, 0x135F); (0x1712, 0x1714);
    (0x1732, 0x1733); (0x1752, 0x1753); (0x1772, 0x1773); (0x17B4, 0x17B5);
    (0x17B7, 0x17BD); (0x17C6, 0x17C6); (0x17C9, 0x17D3); (0x17D7, 0x17D7);
    (0x17DD, 0x17DD); (0x180B, 0x180F); (0x1843, 0x1843); (0x1885, 0x1886);
    (0x18A9, 0x18A9); (0x1920, 0x1922); (0x1927, 0x1928); (0x1932, 0x1932);
    (0x1939, 0x193B); (0x1A17, 0x1A18); (0x1A1B, 0x1A1B); (0x1A56, 0x1A56);
    (0x1A58, 0x1A5E); (0x1A60, 0x1A60); (0x1A62, 0x1A62); (0x1A65, 0x1A6C);
    (0x1A73, 0x1A7C); (0x1A7F, 0x1A7F); (0x1AA7, 0x1AA7); (0x1AB0, 0x1ACE);
    (0x1B00, 0x1B03); (0x1B34, 0x1B34); (0x1B36, 0x1B3A); (0x1B3C, 0x1B3C);
    (0x1B42, 0x1B42); (0x1B6B, 0x1B73); (0x1B80, 0x1B81); (0x1BA2, 0x1BA5);
    (0x1BA8, 0x1BA9); (0x1BAB, 0x1BAD); (0x1BE6, 0x1BE6); (0x1BE8, 0x1BE9);
    (0x1BED, 0x1BED); (0x1BEF, 0x1BF1); (0x1C2C, 0x1C33); (0x1C36, 0x1C37);
    (0x1C78, 0x1C7D); (0x1CD0, 0x1CD2); (0x1CD4, 0x1CE0); (0x1CE2, 0x1CE8);
    (0x1CED, 0x1CED); (0x1CF4, 0x1CF4); (0x1CF8, 0x1CF9); (0x1D2C, 0x1D6A);
    (0x1D78, 0x1D78); (0x1D9B, 0x1DFF); (0x1FBD, 0x1FBD); (0x1FBF, 0x1FC1);
    (0x1FCD, 0x1FCF); (0x1FDD, 0x1FDF); (0x1FED, 0x1FEF); (0x1FFD, 0x1FFE);
    (0x200B, 0x200F); (0x2018, 0x2019); (0x2024, 0x2024); (0x2027, 0x2027);
    (0x202A, 0x202E); (0x2060, 0x2064); (0x2066, 0x206F); (0x2071, 0x2071);
    (0x207F, 0x207F); (0x2090, 0x209C); (0x20D0, 0x20F0); (0x2C7C, 0x2C7D);
    (0x2CEF, 0x2CF1); (0x2D6F, 0x2D6F); (0x2D7F, 0x2D7F); (0x2DE0, 0x2DFF);
    (0x2E2F, 0x2E2F); (0x3005, 0x3005); (0x302A, 0x302D); (0x3031, 0x3035);
    (0x303B, 0x303B); (0x3099, 0x309E); (0x30FC, 0x30FE); (0xA015, 0xA015);
    (0xA4F8, 0xA4FD); (0xA60C, 0xA60C); (0xA66F, 0xA672); (0xA674, 0xA67D);
    (0xA67F, 0xA67F); (0xA69C, 0xA69F); (0xA6F0, 0xA6F1); (0xA700, 0xA721);
    (0xA770, 0xA770); (0xA788, 0xA78A); (0xA7F2, 0xA7F4); (0xA7F8, 0xA7F9);
    (0xA802, 0xA802); (0xA806, 0xA806); (0xA80B, 0xA80B); (0xA825, 0xA826);
    (0xA82C, 0xA82C); (0xA8C4, 0xA8C5); (0xA8E0, 0xA8F1); (0xA8FF, 0xA8FF);
    (0xA926, 0xA92D); (0xA947, 0xA951); (0xA980, 0xA982); (0xA9B3, 0xA9B3);
    (0xA9B6, 0xA9B9); (0xA9BC, 0xA9BD); (0xA9CF, 0xA9CF); (0xA9E5, 0xA9E6);
    (0xAA29, 0xAA2E); (0xAA31, 0xAA32); (0xAA35, 0xAA36); (0xAA43, 0xAA43);
    (0xAA4C, 0xAA4C); (0xAA70, 0xAA70); (0xAA7C, 0xAA7C); (0xAAB0, 0xAAB0);
    (0xAAB2, 0xAAB4); (0xAAB7, 0xAAB8); (0xAABE, 0xAABF); (0xAAC1, 0xAAC1);
    (0xAADD, 0xAADD); (0xAAEC, 0xAAED); (0xAAF3, 0xAAF4); (0xAAF6, 0xAAF6);
    (0xAB5B, 0xAB5F); (0xAB69, 0xAB6B); (0xABE5, 0xABE5); (0xABE8, 0xABE8);
    (0xABED, 0xABED); (0xFB1E, 0xFB1E); (0xFBB2, 0xFBC2); (0xFE00, 0xFE0F);
    (0xFE13, 0xFE13); (0xFE20, 0xFE2F); (0xFE52, 0xFE52); (0xFE55, 0xFE55);
    (0xFEFF, 0xFEFF); (0xFF07, 0xFF07); (0xFF0E, 0xFF0E); (0xFF1A, 0xFF1A);
    (0xFF3E, 0xFF3E); (0xFF40, 0xFF40); (0xFF70, 0xFF70); (0xFF9E, 0xFF9F);
    (0xFFE3, 0xFFE3); (0xFFF9, 0xFFFB); (0x101FD, 0x101FD);
    (0x102E0, 0x102E0); (0x10376, 0x1037A); (0x10780, 0x10785);
    (0x10787, 0x107B0); (0x107B2, 0x107BA); (0x10A01, 0x10A03);
    (0x10A05, 0x10A06); (0x10A0C, 0x10A0F); (0x10A38, 0x10A3A);
    (0x10A3F, 0x10A3F); (0x10AE5, 0x10AE6); (0x10D24, 0x10D27);
    (0x10EAB, 0x10EAC); (0x10F46, 0x10F50); (0x10F82, 0x10F85);
    (0x11001, 0x11001); (0x11038, 0x11046); (0x11070, 0x11070);
    (0x11073, 0x11074); (0x1107F, 0x11081); (0x110B3, 0x110B6);
    (0x110B9, 0x110BA); (0x110BD, 0x110BD); (0x110C2, 0x110C2);
    (0x110CD, 0x110CD); (0x11100, 0x11102); (0x11127, 0x1112B);
    (0x1112D, 0x11134); (0x11173, 0x11173); (0x11180, 0x11181);
    (0x111B6, 0x111BE); (0x111C9, 0x111CC); (0x111CF, 0x111CF);
    (0x1122F, 0x11231); (0x11234, 0x11234); (0x11236, 0x11237);
    (0x1123E, 0x1123E); (0x112DF, 0x112DF); (0x112E3, 0x112EA);
    (0x11300, 0x11301); (0x1133B, 0x1133C); (0x11340, 0x11340);
    (0x11366, 0x1136C); (0x11370, 0x11374); (0x11438, 0x1143F);
    (0x11442, 0x11444); (0x11446, 0x11446); (0x1145E, 0x1145E);
    (0x114B3, 0x114B8); (0x114BA, 0x114BA); (0x114BF, 0x114C0);
    (0x114C2, 0x114C3); (0x115B2, 0x115B5); (0x115BC, 0x115BD);
    (0x115BF, 0x115C0); (0x115DC, 0x115DD); (0x11633, 0x1163A);
    (0x1163D, 0x1163D); (0x1163F, 0x11640); (0x116AB, 0x116AB);
    (0x116AD, 0x116AD); (0x116B0, 0x116B5); (0x116B7, 0x116B7);
    (0x1171D, 0x1171F); (0x11722, 0x11725); (0x11727, 0x1172B);
    (0x1182F, 0x11837); (0x11839, 0x1183A); (0x1193B, 0x1193C);
    (0x1193E, 0x1193E); (0x11943, 0x11943); (0x119D4, 0x119D7);
    (0x119DA, 0x119DB); (0x119E0, 0x119E0); (0x11A01, 0x11A0A);
    (0x11A33, 0x11A38); (0x11A3B, 0x11A3E); (0x11A47, 0x11A47);
    (0x11A51, 0x11A56); (0x11A59, 0x11A5B); (0x11A8A, 0x11A96);
    (0x11A98, 0x11A99); (0x11C30, 0x11C36); (0x11C38, 0x11C3D);
    (0x11C3F, 0x11C3F); (0x11C92, 0x11CA7); (0x11CAA, 0x11CB0);
    (0x11CB2, 0x11CB3); (0x11CB5, 0x11CB6); (0x11D31, 0x11D36);
    (0x11D3A, 0x11D3A); (0x11D3C, 0x11D3D); (0x11D3F, 0x11D45);
    (0x11D47, 0x11D47); (0x11D90, 0x11D91); (0x11D95, 0x11D95);
    (0x11D97, 0x11D97); (0x11EF3, 0x11EF4); (0x13430, 0x13438);
    (0x16AF0, 0x16AF4); (0x16B30, 0x16B36); (0x16B40, 0x16B43);
    (0x16F4F, 0x16F4F); (0x16F8F, 0x16F9F); (0x16FE0, 0x16FE1);
    (0x16FE3, 0x16FE4); (0x1AFF0, 0x1AFF3); (0x1AFF5, 0x1AFFB);
    (0x1AFFD, 0x1AFFE); (0x1BC9D, 0x1BC9E); (0x1BCA0, 0x1BCA3);
    (0x1CF00, 0x1CF2D); (0x1CF30, 0x1CF46); (0x1D167, 0x1D169);
    (0x1D173, 0x1D182); (0x1D185, 0x1D18B); (0x1D1AA, 0x1D1AD);
    (0x1D242, 0x1D244); (0x1DA00, 0x1DA36); (0x1DA3B, 0x1DA6C);
    (0x1DA75, 0x1DA75); (0x1DA84, 0x1DA84); (0x1DA9B, 0x1DA9F);
    (0x1DAA1, 0x1DAAF); (0x1E000, 0x1E006); (0x1E008, 0x1E018);
    (0x1E01B, 0x1E021); (0x1E023, 0x1E024); (0x1E026, 0x1E02A);
    (0x1E130, 0x1E13D); (0x1E2AE, 0x1E2AE); (0x1E2EC, 0x1E2EF);
    (0x1E8D0, 0x1E8D6); (0x1E944, 0x1E94B); (0x1F3FB, 0x1F3FF);
    (0xE0001, 0xE0001); (0xE0020, 0xE007F); (0xE0100, 0xE01EF)
  ].

Definition decimal_zeros : list Z :=
  [
    0x30; 0x660; 0x6F0; 0x7C0; 0x966; 0x9E6; 0xA66; 0xAE6; 0xB66; 0xBE6;
    0xC66; 0xCE6; 0xD66; 0xDE6; 0xE50; 0xED0; 0xF20; 0x1040; 0x1090; 0x17E0;
    0x1810; 0x1946; 0x19D0; 0x1A80; 0x1A90; 0x1B50; 0x1BB0; 0x1C40; 0x1C50;
    0xA620; 0xA8D0; 0xA900; 0xA9D0; 0xA9F0; 0xAA50; 0xABF0; 0xFF10; 0x104A0;
    0x10D30; 0x11066; 0x110F0; 0x11136; 0x111D0; 0x112F0; 0x11450; 0x114D0;
    0x11650; 0x116C0; 0x11730; 0x118E0; 0x11950; 0x11C50; 0x11D50; 0x11DA0;
    0x16A60; 0x16AC0; 0x16B50; 0x1D7CE; 0x1D7D8; 0x1D7E2; 0x1D7EC; 0x1D7F6;
    0x1E140; 0x1E2F0; 0x1E950; 0x1FBF0
  ].
End UCD.

Definition in_ranges (c : Z) (rs : list (Z * Z)) : bool :=
  existsb (fun r => (fst r <=? c) && (c <=? snd r)) rs.

Fixpoint run_lookup (c : Z) (runs : list (Z * Z * Z * Z)) : option Z :=
  match runs with
  | [] => None
  | (first, last, step, delta) :: rest =>
      if (first <=? c) && (c <=? last) && ((c - first) mod step =? 0)
      then Some (c + delta)
      else run_lookup c rest
  end.

Fixpoint multi_lookup (c : Z) (tbl : list (Z * list Z)) : option (list Z) :=
  match tbl with
  | [] => None
  | (k, u) :: rest => if c =? k then Some u else multi_lookup c rest
  end.

Definition isspace (c : Z) : bool := existsb (Z.eqb c) UCD.whitespace.
Definition is_cased (c : Z) : bool := in_ranges c UCD.cased_ranges.
Definition is_case_ignorable (c : Z) : bool :=
  in_ranges c UCD.case_ignorable_ranges.

(** Full uppercase mapping of one code point. *)
Definition to_upper_full (c : Z) : list Z :=
  if c <? 0x80 then [if (0x61 <=? c) && (c <=? 0x7A) then c - 0x20 else c]
  else match multi_lookup c UCD.upper_multi with
       | Some u => u
       | None => match run_lookup c UCD.upper_runs with
                 | Some u => [u]
                 | None => [c]
                 end
       end.

(** Full lowercase mapping of one code point, out of context. *)
Definition to_lower_full (c : Z) : list Z :=
  if c <? 0x80 then [if (0x41 <=? c) && (c <=? 0x5A) then c + 0x20 else c]
  else match multi_lookup c UCD.lower_multi with
       | Some u => u
       | None => match run_lookup c UCD.lower_runs with
                 | Some u => [u]
                 | None => [c]
                 end
       end.

(** *** The [str] methods used by the script *)

Fixpoint lstrip (s : pystr) : pystr :=
  match s with
  | c :: r => if isspace c then lstrip r else s
  | [] => []
  end.

Definition rstrip (s : pystr) : pystr := rev (lstrip (rev s)).

(** [s.strip()] *)
Definition strip (s : pystr) : pystr := rstrip (lstrip s).

(** [s.upper()] *)
Definition upper (s : pystr) : pystr := flat_map to_upper_full s.

Fixpoint skip_ignorable (s : pystr) : pystr :=
  match s with
  | c :: r => if is_case_ignorable c then skip_ignorable r else s
  | [] => []
  end.

(** The lowercase form of a capital sigma (U+03A3): final sigma (U+03C2)
    when a cased letter precedes it and none follows, case-ignorable code
    points skipped on both sides; small sigma (U+03C3) otherwise.  [before]
    is the text before the sigma, nearest code point first. *)
Definition handle_capital_sigma (before after : pystr) : Z :=
  let preceded :=
    match skip_ignorable before with c :: _ => is_cased c | [] => false end in
  let followed :=
    match skip_ignorable after with c :: _ => is_cased c | [] => false end in
  if preceded && negb followed then 0x3C2 else 0x3C3.

Fixpoint lower_from (before s : pystr) : pystr :=
  match s with
  | [] => []
  | c :: r =>
      (if c =? 0x3A3 then [handle_capital_sigma before r]
       else to_lower_full c) ++ lower_from (c :: before) r
  end.

(** [s.lower()] *)
Definition lower (s : pystr) : pystr := lower_from [] s.

(** [s.endswith(suffix)] and [s.endswith((suffix1, suffix2, ...))] *)
Definition endswith (s suffix : pystr) : bool :=
  (List.length suffix <=? List.length s)%nat &&
  str_eqb (skipn (List.length s - List.length suffix) s) suffix.

Definition endswith_any (s : pystr) (suffixes : list pystr) : bool :=
  existsb (endswith s) suffixes.

(** [str(n)] for an [int]: decimal digits, most significant first, with a
    minus sign for a negative number. *)
Fixpoint uint_digits (u : Decimal.uint) : pystr :=
  match u with
  | Decimal.Nil => []
  | Decimal.D0 u => 0x30 :: uint_digits u
  | Decimal.D1 u => 0x31 :: uint_digits u
  | Decimal.D2 u => 0x32 :: uint_digits u
  | Decimal.D3 u => 0x33 :: uint_digits u
  | Decimal.D4 u => 0x34 :: uint_digits u
  | Decimal.D5 u => 0x35 :: uint_digits u
  | Decimal.D6 u => 0x36 :: uint_digits u
  | Decimal.D7 u => 0x37 :: uint_digits u
  | Decimal.D8 u => 0x38 :: uint_digits u
  | Decimal.D9 u => 0x39 :: uint_digits u
  end.

Definition str_of_int (n : Z) : pystr :=
  match Z.to_int n with
  | Decimal.Pos u => uint_digits u
  | Decimal.Neg u => 0x2D :: uint_digits u
  end.

(** ** The constant tables (lines 29-117) *)

Definition VOWEL_BASES : list pystr :=
  Eval vm_compute in
  map py
    [ "AA"; "AE"; "AH"; "AO"; "AW"; "AY"; "EH"; "ER"; "EY"; "IH"; "IY";
      "OW"; "OY"; "UH"; "UW" ]%string.

Definition IPA_TO_ARPABET : list (pystr * pystr) :=
  Eval vm_compute in
  map (fun kv => (py (fst kv), py (snd kv)))
    [ (* Vowels *)
      ("ɑ", "AA"); ("æ", "AE"); ("ʌ", "AH"); ("ə", "AH0"); ("ɔ", "AO");
      (* Diphthongs (canonical IPA) *)
      ("aɪ", "AY"); ("aʊ", "AW"); ("eɪ", "EY"); ("oʊ", "OW"); ("ɔɪ", "OY");
      (* Diphthongs (MFA/english_mfa style) *)
      ("aj", "AY"); ("aw", "AW"); ("ej", "EY"); ("ow", "OW"); ("ɔj", "OY");
      (* Rhotic vowels (canonical IPA forms) *)
      ("ɜr", "ER"); ("ər", "ER0");
      (* Rhotic vowels (common single symbols) *)
      ("ɝ", "ER"); ("ɚ", "ER0");
      (* Non-rhotic high vowels *)
      ("ɪ", "IH"); ("i", "IY"); ("ʊ", "UH"); ("u", "UW");
      (* Consonants *)
      ("b", "B"); ("tʃ", "CH"); ("d", "D"); ("ð", "DH"); ("ɛ", "EH");
      ("f", "F"); ("ɡ", "G"); ("g", "G"); ("h", "HH"); ("dʒ", "JH");
      ("k", "K"); ("l", "L"); ("m", "M"); ("n", "N"); ("ŋ", "NG");
      ("p", "P"); ("r", "R"); ("ɹ", "R"); ("s", "S"); ("ʃ", "SH");
      ("t", "T"); ("θ", "TH"); ("v", "V"); ("w", "W"); ("j", "Y");
      ("z", "Z"); ("ʒ", "ZH");
      (* Noise *)
      ("spn", "spn"); ("sil", "sil") ]%string.

(** ** The phone mapper (lines 120-178) *)

Definition is_upper_AZ (c : Z) : bool := (0x41 <=? c) && (c <=? 0x5A).
Definition is_digit_02 (c : Z) : bool := (0x30 <=? c) && (c <=? 0x32).

(** What may follow the letters in [^[A-Z]{1,3}[0-2]?$]: an optional digit
    0, 1 or 2, then the end of the string; [$] also matches just before a
    newline that ends the string. *)
Definition arpabet_tail (r : pystr) : bool :=
  match r with
  | [] => true
  | [c] => is_digit_02 c || (c =? 0x0A)
  | [c; n] => is_digit_02 c && (n =? 0x0A)
  | _ => false
  end.

(** [_ARPABET_RE.match(s)] for [_ARPABET_RE = re.compile(r"^[A-Z]{1,3}[0-2]?$")],
    as a truth value. *)
Definition _ARPABET_RE_match (s : pystr) : bool :=
  match s with
  | a :: r1 =>
      is_upper_AZ a &&
      (arpabet_tail r1 ||
       match r1 with
       | b :: r2 =>
           is_upper_AZ b &&
           (arpabet_tail r2 ||
            match r2 with
            | c :: r3 => is_upper_AZ c && arpabet_tail r3
            | [] => false
            end)
       | [] => false
       end)
  | [] => false
  end.

Definition _looks_like_arpabet (s : pystr) : bool :=
  let s := upper (strip s) in
  str_eqb s (py "SPN") || _ARPABET_RE_match s.

Definition ipa_phone_to_arpabet (phone : pystr) (default_stress : option Z)
  : pystr :=
  let raw := phone in
  let p := strip phone in
  match p with
  | [] => raw
  | _ :: _ =>
      (* Preserve common non-phoneme tokens. *)
      if str_in (lower p) [py "spn"; py "sil"] then lower p
      (* If already ARPABET-like, normalize case. *)
      else if _looks_like_arpabet p then
        let up := upper p in
        if str_eqb up (py "SPN") then py "spn" else up
      else
        let p_norm := p in
        (* Direct mapping, then the lowercase form. *)
        let base :=
          match dict_get p_norm IPA_TO_ARPABET with
          | Some b => Some b
          | None => dict_get (lower p_norm) IPA_TO_ARPABET
          end in
        match base with
        | None => p  (* Unknown: leave unchanged. *)
        | Some base =>
            (* Explicit stress in mapping. *)
            if endswith_any (upper base) [py "0"; py "1"; py "2"]
            then upper base
            else
              let base_up := upper base in
              (* Apply default stress to vowel bases if requested. *)
              match default_stress with
              | Some d =>
                  if str_in base_up VOWEL_BASES
                  then base_up ++ str_of_int d
                  else base_up
              | None => base_up
              end
        end
  end.

(** ** JSON documents and their conversion (lines 181-229)

    A value returned by [json.load].  A [dict] keeps its items in insertion
    order and is modelled as the list of its items.  The script rewrites the
    loaded value in place and returns it; a value built by [json.load] is a
    tree (no object is reachable twice), so the value after the call is
    modelled as the result of a function. *)

#[warnings="-register-all"]
Inductive json : Type :=
| JNull
| JBool (b : bool)
| JInt (n : Z)
| JFloat (bits : Z)  (* a double, by its 64 bits *)
| JStr (s : pystr)
| JList (items : list json)
| JDict (items : list (pystr * json)).

(** [k in d] *)
Definition dict_has {V : Type} (k : pystr) (d : list (pystr * V)) : bool :=
  match dict_get k d with Some _ => true | None => false end.

(** [d[k] = v]: the item keeps its place when the key is present. *)
Fixpoint dict_set {V : Type} (k : pystr) (v : V) (d : list (pystr * V))
  : list (pystr * V) :=
  match d with
  | [] => [(k, v)]
  | (k', v') :: rest =>
      if str_eqb k k' then (k', v) :: rest else (k', v') :: dict_set k v rest
  end.

(** The value under [k] mutated in place by [f]. *)
Fixpoint dict_mutate {V : Type} (k : pystr) (f : V -> V)
  (d : list (pystr * V)) : list (pystr * V) :=
  match d with
  | [] => []
  | (k', v') :: rest =>
      if str_eqb k k' then (k', f v') :: rest
      else (k', v') :: dict_mutate k f rest
  end.

(** The body of the loop of [_convert_interval_container] (lines 198-199). *)
Definition convert_interval (it : json) (default_stress : option Z) : json :=
  match it with
  | JDict d =>
      match dict_get (py "text") d with
      | Some (JStr text) =>
          JDict (dict_set (py "text")
                   (JStr (ipa_phone_to_arpabet text default_stress)) d)
      | _ => it
      end
  | _ => it
  end.

(** The container after [_convert_interval_container(container, default_stress)]. *)
Definition _convert_interval_container (container : json)
  (default_stress : option Z) : json :=
  match container with
  | JDict d =>
      JDict (map (fun kv => (fst kv, convert_interval (snd kv) default_stress)) d)
  | JList items =>
      JList (map (fun it => convert_interval it default_stress) items)
  | _ => container
  end.

(** The per-file dict after [convert_per_file(per_file)]. *)
Definition convert_per_file (default_stress : option Z)
  (per_file : list (pystr * json)) : list (pystr * json) :=
  if dict_has (py "phones") per_file
  then dict_mutate (py "phones")
         (fun c => _convert_interval_container c default_stress) per_file
  else per_file.

(** The body of the loop of lines 223-225. *)
Definition convert_if_dict (default_stress : option Z) (per_file : json)
  : json :=
  match per_file with
  | JDict d => JDict (convert_per_file default_stress d)
  | _ => per_file
  end.

Definition convert_json_obj (obj : json) (default_stress : option Z) : json :=
  match obj with
  | JDict d =>
      if dict_has (py "words") d && dict_has (py "phones") d
      then (* Single-file object. *)
        JDict (convert_per_file default_stress d)
      else (* filename -> per-file *)
        JDict (map (fun kv =>
                      (fst kv, convert_if_dict default_stress (snd kv))) d)
  | _ => obj  (* Unknown top-level type. *)
  end.

(** *** What a conversion may change

    [text_frame], [container_frame], [per_file_frame] and [doc_frame] relate
    a value to a value with the same keys in the same order and the same
    content everywhere except, possibly, the string bound to ["text"] in a
    dict that is an element of a ["phones"] container. *)

Definition same_keys_and {V : Type} (R : pystr -> V -> V -> Prop)
  (d d' : list (pystr * V)) : Prop :=
  Forall2 (fun kv kv' => fst kv = fst kv' /\ R (fst kv) (snd kv) (snd kv')) d d'.

Definition text_frame (it it' : json) : Prop :=
  it = it' \/
  exists d d', it = JDict d /\ it' = JDict d' /\
    same_keys_and
      (fun k v v' =>
         v = v' \/ (k = py "text" /\ exists s s', v = JStr s /\ v' = JStr s'))
      d d'.

Definition container_frame (c c' : json) : Prop :=
  c = c' \/
  (exists d d', c = JDict d /\ c' = JDict d' /\
     same_keys_and (fun _ => text_frame) d d') \/
  (exists l l', c = JList l /\ c' = JList l' /\ Forall2 text_frame l l').

Definition per_file_frame (d d' : list (pystr * json)) : Prop :=
  same_keys_and
    (fun k v v' => v = v' \/ (k = py "phones" /\ container_frame v v')) d d'.

Definition doc_frame (obj obj' : json) : Prop :=
  match obj with
  | JDict d =>
      exists d', obj' = JDict d' /\
        if dict_has (py "words") d && dict_has (py "phones") d
        then per_file_frame d d'
        else same_keys_and
               (fun _ v v' =>
                  v = v' \/
                  exists pf pf', v = JDict pf /\ v' = JDict pf' /\
                                 per_file_frame pf pf')
               d d'
  | _ => obj' = obj
  end.

(** ** The command line: [--default_stress] (lines 307-319)

    [int(s)] for a string [s], [None] standing for [ValueError]: code points
    above U+007E are first turned into ASCII (white space into a space, a
    decimal digit of any script into its ASCII digit, anything else into a
    question mark); then come optional white space, an optional sign, decimal
    digits with single underscores between them, and optional white space. *)

Definition to_decimal (c : Z) : option Z :=
  match find (fun z => (z <=? c) && (c <? z + 10)) UCD.decimal_zeros with
  | Some z => Some (c - z)
  | None => None
  end.

Fixpoint transform_decimal_and_space (s : pystr) : pystr :=
  match s with
  | [] => []
  | c :: r =>
      if c <? 127 then c :: transform_decimal_and_space r
      else if isspace c then 0x20 :: transform_decimal_and_space r
      else match to_decimal c with
           | Some d => (0x30 + d) :: transform_decimal_and_space r
           | None => [0x3F]
           end
  end.

(** White space of the C locale. *)
Definition c_isspace (c : Z) : bool :=
  ((0x09 <=? c) && (c <=? 0x0D)) || (c =? 0x20).

Fixpoint skip_c_spaces (s : pystr) : pystr :=
  match s with
  | c :: r => if c_isspace c then skip_c_spaces r else s
  | [] => []
  end.

(** Digits and underscores: the value read, the number of digits and the
    rest of the text; [None] for two underscores in a row or an underscore
    at the end. *)
Fixpoint scan_digits (s : pystr) (prev_underscore : bool) (value : Z)
  (digits : Z) : option (Z * Z * pystr) :=
  match s with
  | c :: r =>
      if (0x30 <=? c) && (c <=? 0x39)
      then scan_digits r false (value * 10 + (c - 0x30)) (digits + 1)
      else if c =? 0x5F
      then if prev_underscore then None else scan_digits r true value digits
      else if prev_underscore then None else Some (value, digits, s)
  | [] => if prev_underscore then None else Some (value, digits, [])
  end.

(** The default of [sys.get_int_max_str_digits()]. *)
Definition int_max_str_digits : Z := 4300.

Definition int_of_str (s : pystr) : option Z :=
  let s1 := skip_c_spaces (transform_decimal_and_space s) in
  let signed :=
    match s1 with
    | c :: r => if c =? 0x2B then (1, r)
                else if c =? 0x2D then (-1, r) else (1, s1)
    | [] => (1, s1)
    end in
  match snd signed with
  | c :: _ =>
      if c =? 0x5F then None
      else
        match scan_digits (snd signed) false 0 0 with
        | Some (value, digits, rest) =>
            if (digits =? 0) || (int_max_str_digits <? digits) then None
            else match skip_c_spaces rest with
                 | [] => Some (fst signed * value)
                 | _ :: _ => None
                 end
        | None => None
        end
  | [] => None
  end.

(** The options read by [argparse]. *)
Record Args : Type := {
  input : pystr;
  out : option pystr;
  out_dir : option pystr;
  inplace : bool;
  default_stress : pystr
}.

Definition usage_message : pystr :=
  Eval vm_compute in py "--default_stress must be 0, 1, 2, or 'none'".

(** Lines 311-319: the stress policy, or the message of the [SystemExit]. *)
Definition parse_default_stress (value : pystr) : pystr + option Z :=
  if str_eqb (lower value) (py "none") then inr None
  else
    match int_of_str value with
    | None => inl usage_message
    | Some n =>
        if negb (existsb (Z.eqb n) [0; 1; 2]) then inl usage_message
        else inr (Some n)
    end.

(** How a run of the script ends. *)
Inductive outcome : Type :=
| Returned (status : Z)           (* [main] returned *)
| SystemExit (message : pystr)    (* [raise SystemExit("...")] *)
| Uncaught (exception : pystr).   (* any other exception *)

Definition exit_status (o : outcome) : Z :=
  match o with
  | Returned status => status
  | SystemExit _ => 1
  | Uncaught _ => 1
  end.

Section Main.

(** The file system, the paths, [Path(s).expanduser()] ([None] when the
    home directory cannot be determined, a [RuntimeError]), and the rest
    of [main] (lines 321-349): the checks on the paths and the reading,
    converting and writing of the documents. *)
Variable world : Type.
Variable path : Type.
Variable expanduser : pystr -> option path.
Variable convert_paths :
  Args -> path -> option Z -> world -> world * outcome.

Definition main (args : Args) (w : world) : world * outcome :=
  match expanduser (input args) with
  | None => (w, Uncaught (py "RuntimeError"))
  | Some in_path =>
      match parse_default_stress (default_stress args) with
      | inl message => (w, SystemExit message)
      | inr policy => convert_paths args in_path policy w
      end
  end.

End Main.

(** ** Vocabulary of the properties *)

Definition is_ascii_letter (c : Z) : bool :=
  is_upper_AZ c || ((0x61 <=? c) && (c <=? 0x7A)).

(** One to three ASCII letters of either case, then possibly one of the
    digits 0, 1, 2. *)
Definition ascii_arpabet_like (p : pystr) : bool :=
  match p with
  | [a] => is_ascii_letter a
  | [a; b] => is_ascii_letter a && (is_ascii_letter b || is_digit_02 b)
  | [a; b; c] =>
      is_ascii_letter a && is_ascii_letter b &&
      (is_ascii_letter c || is_digit_02 c)
  | [a; b; c; d] =>
      is_ascii_letter a && is_ascii_letter b && is_ascii_letter c &&
      is_digit_02 d
  | _ => false
  end.

(** Lowercase of an ASCII code point. *)
Definition ascii_tolower (c : Z) : Z :=
  if (0x41 <=? c) && (c <=? 0x5A) then c + 0x20 else c.

(** Uppercase of an ASCII code point. *)
Definition ascii_toupper (c : Z) : Z :=
  if (0x61 <=? c) && (c <=? 0x7A) then c - 0x20 else c.

(** The noise tokens of line 146. *)
Definition noise_tokens : list pystr := Eval vm_compute in [py "spn"; py "sil"].

(** [--default_stress] passes the validation of lines 311-319. *)
Definition accepted (value : pystr) : bool :=
  match parse_default_stress value with inr _ => true | inl _ => false end.

(** The stress policies that pass the validation of [main]. *)
Definition valid_policy (s : option Z) : Prop :=
  s = None \/ s = Some 0 \/ s = Some 1 \/ s = Some 2.

(** The phone labels of a document, in document order: the strings bound to
    text in the dict elements of its phones containers. *)
Definition interval_text (it : json) : option pystr :=
  match it with
  | JDict d =>
      match dict_get (py "text") d with
      | Some (JStr text) => Some text
      | _ => None
      end
  | _ => None
  end.

Definition option_list {A : Type} (o : option A) : list A :=
  match o with Some a => [a] | None => [] end.

Definition container_texts (container : json) : list pystr :=
  match container with
  | JDict d => flat_map (fun kv => option_list (interval_text (snd kv))) d
  | JList items => flat_map (fun it => option_list (interval_text it)) items
  | _ => []
  end.

Definition per_file_texts (per_file : list (pystr * json)) : list pystr :=
  match dict_get (py "phones") per_file with
  | Some container => container_texts container
  | None => []
  end.

Definition phone_texts (obj : json) : list pystr :=
  match obj with
  | JDict d =>
      if dict_has (py "words") d && dict_has (py "phones") d
      then per_file_texts d
      else flat_map (fun kv => match snd kv with
                               | JDict per_file => per_file_texts per_file
                               | _ => []
                               end) d
  | _ => []
  end.

(** ** Paths (lines 232-246)

    [pathlib] paths of the POSIX flavour, as CPython 3.11 computes them: a
    path is its root (empty, one slash or two) and the names after it.
    [parse_parts] is the constructor applied to a list of strings;
    [Path(s)] is [parse_parts [s]]. *)

Record PurePath : Type := { root : pystr; names : list pystr }.

Definition sep : Z := 0x2F.

(** [s.split(c)] *)
Fixpoint split_on (c : Z) (s : pystr) : list pystr :=
  match s with
  | [] => [[]]
  | x :: r =>
      if x =? c then [] :: split_on c r
      else match split_on c r with
           | h :: t => (x :: h) :: t
           | [] => [[x]]
           end
  end.

(** [s.lstrip(c)] for one code point [c] *)
Fixpoint lstrip_char (c : Z) (s : pystr) : pystr :=
  match s with
  | x :: r => if x =? c then lstrip_char c r else s
  | [] => []
  end.

Definition splitroot (part : pystr) : pystr * pystr :=
  match part with
  | c :: _ =>
      if c =? sep then
        let stripped_part := lstrip_char sep part in
        if (List.length part - List.length stripped_part =? 2)%nat
        then ([sep; sep], stripped_part)
        else ([sep], stripped_part)
      else ([], part)
  | [] => ([], part)
  end.

(** The names kept from the text after the root: the empty name and the
    dot are dropped. *)
Definition is_kept (x : pystr) : bool :=
  negb (str_eqb x []) && negb (str_eqb x (py ".")).

Definition is_empty (s : pystr) : bool :=
  match s with [] => true | _ :: _ => false end.

Fixpoint parse_parts (parts : list pystr) : PurePath :=
  match parts with
  | [] => {| root := []; names := [] |}
  | part :: rest =>
      let later := parse_parts rest in
      if negb (is_empty (root later)) then later
      else
        let (rt, rel) := splitroot part in
        {| root := rt;
           names := filter is_kept (split_on sep rel) ++ names later |}
  end.

(** [p.parts] *)
Definition parts (p : PurePath) : list pystr :=
  if is_empty (root p) then names p else root p :: names p.

Fixpoint join_sep (l : list pystr) : pystr :=
  match l with
  | [] => []
  | [x] => x
  | x :: r => x ++ sep :: join_sep r
  end.

(** [str(p)] *)
Definition path_str (p : PurePath) : pystr :=
  match root p ++ join_sep (names p) with
  | [] => py "."
  | s => s
  end.

(** [p.name] *)
Definition name (p : PurePath) : pystr := last (names p) [].

(** [p.parent] *)
Definition parent (p : PurePath) : PurePath :=
  {| root := root p; names := removelast (names p) |}.

(** [s.rfind(c)], [None] standing for -1. *)
Fixpoint rfind_from (c : Z) (s : pystr) (i : nat) (found : option nat)
  : option nat :=
  match s with
  | [] => found
  | x :: r => rfind_from c r (S i) (if x =? c then Some i else found)
  end.

Definition rfind (c : Z) (s : pystr) : option nat := rfind_from c s 0 None.

(** The suffix of a name: from its last dot on, unless that dot is the first
    or the last code point of the name. *)
Definition suffix_of (nm : pystr) : pystr :=
  match rfind 0x2E nm with
  | Some i =>
      if (0 <? i)%nat && (i <? List.length nm - 1)%nat then skipn i nm else []
  | None => []
  end.

(** [p.with_suffix(suffix)], [None] standing for [ValueError]. *)
Definition with_suffix (p : PurePath) (suffix : pystr) : option PurePath :=
  if existsb (Z.eqb sep) suffix then None
  else if (negb (is_empty suffix) && negb (endswith (firstn 1 suffix) (py ".")))
          || str_eqb suffix (py ".")
  then None
  else
    let nm := name p in
    if is_empty nm then None
    else
      let old_suffix := suffix_of nm in
      let nm' :=
        if is_empty old_suffix then nm ++ suffix
        else firstn (List.length nm - List.length old_suffix) nm ++ suffix in
      Some {| root := root p; names := removelast (names p) ++ [nm'] |}.

(** [p / key] for a string and [p / q] for a path, as [truediv p [key]] and
    [truediv p (parts q)]. *)
Definition truediv (p : PurePath) (args : list pystr) : PurePath :=
  let q := parse_parts args in
  if negb (is_empty (root q)) then q
  else {| root := root p; names := names p ++ names q |}.

(** The path that [rglob] makes of a directory and the names below it. *)
Definition make_child_relpath (p : PurePath) (rel : list pystr) : PurePath :=
  {| root := root p; names := names p ++ rel |}.

Fixpoint strs_eqb (a b : list pystr) : bool :=
  match a, b with
  | [], [] => true
  | x :: a', y :: b' => str_eqb x y && strs_eqb a' b'
  | _, _ => false
  end.

(** [p.relative_to(other)], [None] standing for [ValueError]. *)
Definition relative_to (p other : PurePath) : option PurePath :=
  let abs_parts q := if is_empty (root q) then names q
                     else [] :: root q :: names q in
  let to_abs_parts := abs_parts (parse_parts (parts other)) in
  let n := List.length to_abs_parts in
  if match n with
     | O => negb (is_empty (root p))
     | _ => negb (strs_eqb (firstn n (abs_parts p)) to_abs_parts)
     end
  then None
  else Some {| root := match n with 1%nat => root p | _ => [] end;
               names := skipn n (abs_parts p) |}.

Definition _default_outfile_for_file (in_file : PurePath) : option PurePath :=
  with_suffix in_file (py ".arpa.json").

Definition _default_outdir_for_dir (in_dir : PurePath) : PurePath :=
  truediv (parent in_dir) [name in_dir ++ py "_arpa"].

(** [s.startswith(prefix)] *)
Definition startswith (s prefix : pystr) : bool :=
  str_eqb (firstn (List.length prefix) s) prefix.

(** Line 243: some part of the path starts with a dot. *)
Definition has_dot_part (p : PurePath) : bool :=
  existsb (fun part => startswith part (py ".")) (parts p).

(** Lines 340-341: the output file of an input file found under [in_path]. *)
Definition out_file_for (in_path out_dir in_file : PurePath)
  : option PurePath :=
  match relative_to in_file in_path with
  | Some rel => Some (truediv out_dir (parts rel))
  | None => None
  end.

(** A name as a directory holds it: not empty, not the dot, without a
    slash. *)
Definition valid_name (x : pystr) : Prop :=
  x <> [] /\ x <> py "." /\ ~ In sep x.

(** The paths that the constructor builds. *)
Definition wf_path (p : PurePath) : Prop :=
  (root p = [] \/ root p = [sep] \/ root p = [sep; sep]) /\
  Forall valid_name (names p).

(** ** The run after the validation (lines 321-349)

    The file system is a parameter: a state [world]; the three tests on a
    path, [_read_json] and [_write_json] (lines 249-258), each with the
    exception it may raise; and [os.path.expanduser].  [rglob] is lazy: each
    path it produces is tested and converted before the next one is asked
    for.  The walk of a directory is therefore modelled by the list
    [produced] of the names, below the input directory, of the paths that
    [rglob] produces in the run, whatever they are; the test of line 245 is
    made in the file system as it is by then.  A walk that does not end, or
    that raises an exception itself, is not modelled. *)

Section Run.

Variable world : Type.
Variable path_exists : world -> PurePath -> pystr + bool.
Variable path_is_file : world -> PurePath -> pystr + bool.
Variable path_is_dir : world -> PurePath -> pystr + bool.
Variable _read_json : world -> PurePath -> pystr + json.
Variable _write_json : PurePath -> json -> world -> world * option pystr.
Variable os_expanduser : pystr -> pystr.

(** [p.expanduser()], [None] standing for [RuntimeError]. *)
Definition expanduser (p : PurePath) : option PurePath :=
  match names p with
  | first :: rest =>
      if is_empty (root p) && startswith first (py "~") then
        let homedir := os_expanduser first in
        if str_eqb (firstn 1 homedir) (py "~") then None
        else Some (parse_parts (homedir :: rest))
      else Some p
  | [] => Some p
  end.

(** [Path(s).expanduser()] *)
Definition Path_expanduser (s : pystr) : option PurePath :=
  expanduser (parse_parts [s]).

(** Line 327: the output path of a file, or the exception raised. *)
Definition file_out_path (args : Args) (in_path : PurePath)
  : pystr + PurePath :=
  if inplace args then inr in_path
  else
    match out args with
    | Some (c :: r) =>
        match Path_expanduser (c :: r) with
        | Some p => inr p
        | None => inl (py "RuntimeError")
        end
    | _ =>
        match _default_outfile_for_file in_path with
        | Some p => inr p
        | None => inl (py "ValueError")
        end
    end.

(** Line 337: the output directory, or the exception raised. *)
Definition dir_out_dir (args : Args) (in_path : PurePath)
  : pystr + PurePath :=
  if inplace args then inr in_path
  else
    match out_dir args with
    | Some (c :: r) =>
        match Path_expanduser (c :: r) with
        | Some p => inr p
        | None => inl (py "RuntimeError")
        end
    | _ => inr (_default_outdir_for_dir in_path)
    end.

(** Lines 243-246: whether [_iter_json_files] yields the path [p] that
    [rglob] has produced, or the exception raised by the test. *)
Definition _iter_json_files_yields (w : world) (p : PurePath)
  : pystr + bool :=
  if has_dot_part p then inr false else path_is_file w p.

(** Lines 329-331 and 343-345: read, convert, write. *)
Definition convert_file (in_file out_file : PurePath) (policy : option Z)
  (w : world) : world * option pystr :=
  match _read_json w in_file with
  | inl exn => (w, Some exn)
  | inr obj => _write_json out_file (convert_json_obj obj policy) w
  end.

(** The loop of lines 339-345. *)
Fixpoint convert_files (produced : list (list pystr))
  (in_path out_dir : PurePath) (policy : option Z) (w : world)
  : world * outcome :=
  match produced with
  | [] => (w, Returned 0)
  | rel :: rest =>
      let in_file := make_child_relpath in_path rel in
      match _iter_json_files_yields w in_file with
      | inl exn => (w, Uncaught exn)
      | inr false => convert_files rest in_path out_dir policy w
      | inr true =>
          match out_file_for in_path out_dir in_file with
          | None => (w, Uncaught (py "ValueError"))
          | Some out_file =>
              match convert_file in_file out_file policy w with
              | (w', Some exn) => (w', Uncaught exn)
              | (w', None) => convert_files rest in_path out_dir policy w'
              end
          end
      end
  end.

Definition file_mode (args : Args) (in_path : PurePath) (policy : option Z)
  (w : world) : world * outcome :=
  match out_dir args with
  | Some _ =>
      (w, SystemExit (py "--out_dir is only valid when input is a directory"))
  | None =>
      match file_out_path args in_path with
      | inl exn => (w, Uncaught exn)
      | inr out_path =>
          match convert_file in_path out_path policy w with
          | (w', Some exn) => (w', Uncaught exn)
          | (w', None) => (w', Returned 0)
          end
      end
  end.

Definition directory_mode (produced : list (list pystr)) (args : Args)
  (in_path : PurePath) (policy : option Z) (w : world) : world * outcome :=
  match out args with
  | Some _ => (w, SystemExit (py "--out is only valid when input is a file"))
  | None =>
      match dir_out_dir args in_path with
      | inl exn => (w, Uncaught exn)
      | inr out_directory =>
          convert_files produced in_path out_directory policy w
      end
  end.

Definition convert_paths (produced : list (list pystr)) (args : Args)
  (in_path : PurePath) (policy : option Z) (w : world) : world * outcome :=
  match path_exists w in_path with
  | inl exn => (w, Uncaught exn)
  | inr false =>
      (w, SystemExit (py "Input path not found: " ++ path_str in_path))
  | inr true =>
      match path_is_file w in_path with
      | inl exn => (w, Uncaught exn)
      | inr true => file_mode args in_path policy w
      | inr false =>
          match path_is_dir w in_path with
          | inl exn => (w, Uncaught exn)
          | inr true => directory_mode produced args in_path policy w
          | inr false =>
              (w, SystemExit (py "Unsupported input path type: "
                              ++ path_str in_path))
          end
      end
  end.

(** [main] as a whole. *)
Definition run (produced : list (list pystr)) (args : Args) (w : world)
  : world * outcome :=
  main world PurePath Path_expanduser (convert_paths produced) args w.

End Run.

(** * Properties *)

(** ** Strings *)

Lemma str_eqb_eq (a b : pystr) : str_eqb a b = true <-> a = b.
Proof.
  revert b; induction a as [|x a IH]; intros [|y b]; simpl;
    try (split; [discriminate | congruence]); try tauto.
  rewrite andb_true_iff, Z.eqb_eq, IH.
  split; [intros [-> ->]; reflexivity | intros H; inversion H; auto].
Qed.

Lemma str_eqb_refl (a : pystr) : str_eqb a a = true.
Proof. apply str_eqb_eq; reflexivity. Qed.

Lemma str_eqb_neq (a b : pystr) : str_eqb a b = false <-> a <> b.
Proof.
  rewrite <- str_eqb_eq. destruct (str_eqb a b); split; congruence.
Qed.

Lemma str_in_In (s : pystr) (set : list pystr) :
  str_in s set = true <-> In s set.
Proof.
  unfold str_in. rewrite existsb_exists. split.
  - intros [x [Hin Heq]]. apply str_eqb_eq in Heq. subst; assumption.
  - intros Hin. exists s. split; [assumption | apply str_eqb_refl].
Qed.

Lemma dict_get_In {V : Type} (k : pystr) (d : list (pystr * V)) (v : V) :
  dict_get k d = Some v -> In (k, v) d.
Proof.
  induction d as [|[k' v'] d IH]; simpl; [discriminate|].
  destruct (str_eqb k k') eqn:E.
  - apply str_eqb_eq in E. intros H; inversion H; subst. left; reflexivity.
  - intros H; right; auto.
Qed.

(** The keys of the table literal are distinct, so the list of its items is
    the dict. *)
Example IPA_TO_ARPABET_keys_distinct : NoDup (map fst IPA_TO_ARPABET).
Proof.
  unfold IPA_TO_ARPABET. cbn [map fst].
  repeat (constructor;
          [cbn [In]; intros H;
           repeat (destruct H as [H|H]; [discriminate H|]); exact H|]).
  constructor.
Qed.

(** *** [strip] *)

Lemma lstrip_fixed (s : pystr) :
  match s with c :: _ => isspace c = false | [] => True end -> lstrip s = s.
Proof. destruct s as [|c r]; simpl; [reflexivity | intros ->; reflexivity]. Qed.

Lemma lstrip_head (s : pystr) :
  match lstrip s with c :: _ => isspace c = false | [] => True end.
Proof.
  induction s as [|c r IH]; simpl; [exact I|].
  destruct (isspace c) eqn:E; [exact IH | exact E].
Qed.

Lemma lstrip_suffix (s : pystr) : exists ws, s = ws ++ lstrip s.
Proof.
  induction s as [|c r [ws IH]]; simpl.
  - exists []; reflexivity.
  - destruct (isspace c).
    + exists (c :: ws). simpl. congruence.
    + exists []. reflexivity.
Qed.

Lemma lstrip_idem (s : pystr) : lstrip (lstrip s) = lstrip s.
Proof. apply lstrip_fixed, lstrip_head. Qed.

Lemma rstrip_prefix (s : pystr) : exists ws, s = rstrip s ++ ws.
Proof.
  unfold rstrip. destruct (lstrip_suffix (rev s)) as [ws H].
  exists (rev ws). rewrite <- rev_app_distr, <- H, rev_involutive. reflexivity.
Qed.

(** Stripping on the right keeps the first code point of a string that
    starts with something else than white space. *)
Lemma rstrip_keeps_head (c : Z) (r : pystr) :
  isspace c = false -> exists r', rstrip (c :: r) = c :: r'.
Proof.
  intros Hc. unfold rstrip. simpl rev.
  assert (H : forall t, exists r', rev (lstrip (t ++ [c])) = c :: r').
  { induction t as [|x t [r' IH]]; simpl.
    - rewrite Hc. exists []. reflexivity.
    - destruct (isspace x).
      + exists r'. exact IH.
      + exists (rev t ++ [x]). simpl. rewrite rev_app_distr. reflexivity. }
  apply H.
Qed.

Lemma strip_head (s : pystr) :
  match strip s with c :: _ => isspace c = false | [] => True end.
Proof.
  unfold strip. pose proof (lstrip_head s) as H.
  destruct (lstrip s) as [|c r] eqn:E; [exact I|].
  destruct (rstrip_keeps_head c r H) as [r' ->]. exact H.
Qed.

Lemma strip_last (s : pystr) :
  match rev (strip s) with c :: _ => isspace c = false | [] => True end.
Proof.
  unfold strip, rstrip. rewrite rev_involutive. apply lstrip_head.
Qed.

(** A string that neither starts nor ends with white space is its own
    stripped form. *)
Lemma strip_fixed (s : pystr) :
  match s with c :: _ => isspace c = false | [] => True end ->
  match rev s with c :: _ => isspace c = false | [] => True end ->
  strip s = s.
Proof.
  intros H1 H2. unfold strip. rewrite (lstrip_fixed s H1).
  unfold rstrip. rewrite (lstrip_fixed (rev s) H2). apply rev_involutive.
Qed.

Lemma strip_idem (s : pystr) : strip (strip s) = strip s.
Proof. apply strip_fixed; [apply strip_head | apply strip_last]. Qed.

(** *** Case mappings on ASCII text *)

Ltac bool_prop :=
  repeat match goal with
    | H : _ && _ = true |- _ => apply andb_true_iff in H; destruct H
    | H : _ || _ = true |- _ => apply orb_true_iff in H; destruct H
    | H : _ && _ = false |- _ => apply andb_false_iff in H; destruct H
    | H : _ || _ = false |- _ => apply orb_false_iff in H; destruct H
    | H : negb _ = true |- _ => apply negb_true_iff in H
    | H : negb _ = false |- _ => apply negb_false_iff in H
    | H : (_ <=? _) = true |- _ => apply Z.leb_le in H
    | H : (_ <=? _) = false |- _ => apply Z.leb_gt in H
    | H : (_ <? _) = true |- _ => apply Z.ltb_lt in H
    | H : (_ <? _) = false |- _ => apply Z.ltb_ge in H
    | H : (_ =? _) = true |- _ => apply Z.eqb_eq in H
    | H : (_ =? _) = false |- _ => apply Z.eqb_neq in H
    end.

Lemma isspace_ascii_graphic (c : Z) : 0x21 <= c <= 0x7E -> isspace c = false.
Proof.
  intros H. unfold isspace, UCD.whitespace. simpl.
  repeat (rewrite (proj2 (Z.eqb_neq c _)) by lia; simpl). reflexivity.
Qed.

Lemma isspace_newline : isspace 0x0A = true.
Proof. reflexivity. Qed.

Lemma to_upper_full_below_a (c : Z) : c < 0x61 -> to_upper_full c = [c].
Proof.
  intros H. unfold to_upper_full.
  rewrite (proj2 (Z.ltb_lt c 0x80)) by lia.
  rewrite (proj2 (Z.leb_gt 0x61 c)) by lia. reflexivity.
Qed.

Lemma to_upper_full_letter (c : Z) :
  is_ascii_letter c = true ->
  exists C, to_upper_full c = [C] /\ is_upper_AZ C = true /\
            (C = c \/ C = c - 0x20).
Proof.
  unfold is_ascii_letter, is_upper_AZ, to_upper_full. intros H.
  rewrite (proj2 (Z.ltb_lt c 0x80)) by (bool_prop; lia).
  destruct ((0x61 <=? c) && (c <=? 0x7A)) eqn:E; eexists; split;
    try reflexivity; bool_prop; split; try lia;
    apply andb_true_iff; split; apply Z.leb_le; lia.
Qed.

Lemma upper_below_a (s : pystr) : Forall (fun c => c < 0x61) s -> upper s = s.
Proof.
  unfold upper. induction 1 as [|c r Hc _ IH]; simpl; [reflexivity|].
  rewrite to_upper_full_below_a, IH by assumption. reflexivity.
Qed.

Lemma lower_from_ascii (s before : pystr) :
  Forall (fun c => c < 0x80) s -> lower_from before s = map ascii_tolower s.
Proof.
  intros H; revert before. induction H as [|c r Hc _ IH]; intros before; simpl;
    [reflexivity|].
  rewrite (proj2 (Z.eqb_neq c 0x3A3)) by lia.
  unfold to_lower_full. rewrite (proj2 (Z.ltb_lt c 0x80)) by lia.
  simpl. rewrite IH. reflexivity.
Qed.

Lemma lower_ascii (s : pystr) :
  Forall (fun c => c < 0x80) s -> lower s = map ascii_tolower s.
Proof. apply lower_from_ascii. Qed.

(** *** Uppercasing never makes a newline *)

Lemma multi_lookup_In (c : Z) (tbl : list (Z * list Z)) (u : list Z) :
  multi_lookup c tbl = Some u -> In (c, u) tbl.
Proof.
  induction tbl as [|[k v] tbl IH]; simpl; [discriminate|].
  destruct (c =? k) eqn:E.
  - apply Z.eqb_eq in E. intros H; inversion H; subst. left; reflexivity.
  - intros H; right; auto.
Qed.

Lemma run_lookup_bound (c u bound : Z) (runs : list (Z * Z * Z * Z)) :
  forallb (fun r => match r with (first, _, _, delta) => bound <? first + delta end)
    runs = true ->
  run_lookup c runs = Some u -> bound < u.
Proof.
  induction runs as [|[[[first last] step] delta] runs IH]; simpl;
    [discriminate|].
  intros Hall. apply andb_true_iff in Hall. destruct Hall as [H1 H2].
  destruct ((first <=? c) && (c <=? last) && ((c - first) mod step =? 0)) eqn:E.
  - intros H; inversion H; subst. bool_prop. lia.
  - apply IH; assumption.
Qed.

Lemma to_upper_full_last (c : Z) :
  c <> 0x0A -> to_upper_full c <> [] /\ last (to_upper_full c) 0 <> 0x0A.
Proof.
  intros Hc. unfold to_upper_full. destruct (c <? 0x80) eqn:E.
  - split; [discriminate|]. simpl.
    destruct ((0x61 <=? c) && (c <=? 0x7A)) eqn:E2; bool_prop; lia.
  - destruct (multi_lookup c UCD.upper_multi) as [u|] eqn:E1.
    + apply multi_lookup_In in E1.
      assert (Hall : forallb (fun kv => match snd kv with
                                        | [] => false
                                        | _ :: _ => negb (last (snd kv) 0 =? 0x0A)
                                        end) UCD.upper_multi = true)
        by (vm_compute; reflexivity).
      rewrite forallb_forall in Hall. specialize (Hall _ E1). simpl in Hall.
      destruct u; [discriminate|]. split; [discriminate|].
      bool_prop. assumption.
    + destruct (run_lookup c UCD.upper_runs) as [u|] eqn:E2.
      * split; [discriminate|]. simpl.
        assert (0x0A < u); [|lia].
        apply (run_lookup_bound c u 0x0A UCD.upper_runs);
          [vm_compute; reflexivity | assumption].
      * split; [discriminate|]. simpl. assumption.
Qed.

Lemma last_app_nonempty (l l' : pystr) (d : Z) :
  l' <> [] -> last (l ++ l') d = last l' d.
Proof.
  intros H. induction l as [|x l IH]; simpl; [reflexivity|].
  destruct (l ++ l') eqn:E; [|exact IH].
  apply app_eq_nil in E. destruct E; contradiction.
Qed.

(** The uppercase form of a stripped string does not end with a newline. *)
Lemma upper_strip_last (s : pystr) : last (upper (strip s)) 0 <> 0x0A.
Proof.
  pose proof (strip_last s) as H.
  destruct (rev (strip s)) as [|c t] eqn:E.
  - apply (f_equal (@rev Z)) in E. rewrite rev_involutive in E.
    rewrite E. simpl. lia.
  - apply (f_equal (@rev Z)) in E. rewrite rev_involutive in E. simpl in E.
    rewrite E. unfold upper. rewrite flat_map_app. simpl. rewrite app_nil_r.
    assert (Hc : c <> 0x0A) by (intros ->; rewrite isspace_newline in H; discriminate).
    destruct (to_upper_full_last c Hc) as [H1 H2].
    rewrite last_app_nonempty; assumption.
Qed.

(** ** The phone mapper, branch by branch *)

(** Lines 142-143. *)
Lemma convert_blank (phone : pystr) (default_stress : option Z) :
  strip phone = [] -> ipa_phone_to_arpabet phone default_stress = phone.
Proof. unfold ipa_phone_to_arpabet. intros ->. reflexivity. Qed.

(** Lines 146-147. *)
Lemma convert_noise (phone : pystr) (default_stress : option Z) :
  str_in (lower (strip phone)) noise_tokens = true ->
  ipa_phone_to_arpabet phone default_stress = lower (strip phone).
Proof.
  unfold ipa_phone_to_arpabet. intros H.
  destruct (strip phone) as [|c r] eqn:E; [discriminate H|].
  change [py "spn"; py "sil"] with noise_tokens. rewrite H. reflexivity.
Qed.

(** Lines 150-152. *)
Lemma convert_arpabet (phone : pystr) (default_stress : option Z) :
  strip phone <> [] ->
  str_in (lower (strip phone)) noise_tokens = false ->
  _looks_like_arpabet (strip phone) = true ->
  ipa_phone_to_arpabet phone default_stress =
    if str_eqb (upper (strip phone)) (py "SPN") then py "spn"
    else upper (strip phone).
Proof.
  unfold ipa_phone_to_arpabet. intros Hne Hnoise Hlooks.
  destruct (strip phone) as [|c r] eqn:E; [contradiction|].
  change [py "spn"; py "sil"] with noise_tokens.
  rewrite Hnoise, Hlooks. reflexivity.
Qed.

(** Lines 164-166. *)
Lemma convert_unknown (phone : pystr) (default_stress : option Z) :
  strip phone <> [] ->
  str_in (lower (strip phone)) noise_tokens = false ->
  _looks_like_arpabet (strip phone) = false ->
  dict_get (strip phone) IPA_TO_ARPABET = None ->
  dict_get (lower (strip phone)) IPA_TO_ARPABET = None ->
  ipa_phone_to_arpabet phone default_stress = strip phone.
Proof.
  unfold ipa_phone_to_arpabet. intros Hne Hnoise Hlooks H1 H2.
  destruct (strip phone) as [|c r] eqn:E; [contradiction|].
  change [py "spn"; py "sil"] with noise_tokens.
  rewrite Hnoise, Hlooks, H1, H2. reflexivity.
Qed.

(** Lines 168-178. *)
Lemma convert_mapped (phone : pystr) (default_stress : option Z)
  (base : pystr) :
  strip phone <> [] ->
  str_in (lower (strip phone)) noise_tokens = false ->
  _looks_like_arpabet (strip phone) = false ->
  match dict_get (strip phone) IPA_TO_ARPABET with
  | Some b => Some b
  | None => dict_get (lower (strip phone)) IPA_TO_ARPABET
  end = Some base ->
  ipa_phone_to_arpabet phone default_stress =
    if endswith_any (upper base) [py "0"; py "1"; py "2"] then upper base
    else match default_stress with
         | Some d => if str_in (upper base) VOWEL_BASES
                     then upper base ++ str_of_int d else upper base
         | None => upper base
         end.
Proof.
  unfold ipa_phone_to_arpabet. intros Hne Hnoise Hlooks H.
  destruct (strip phone) as [|c r] eqn:E; [contradiction|].
  change [py "spn"; py "sil"] with noise_tokens.
  rewrite Hnoise, Hlooks, H. reflexivity.
Qed.

(** *** Canonical ARPABET text *)

Lemma regex_chars (u : pystr) :
  _ARPABET_RE_match u = true -> last u 0 <> 0x0A ->
  Forall (fun c => 0x30 <= c <= 0x5A) u.
Proof.
  unfold _ARPABET_RE_match, arpabet_tail, is_upper_AZ, is_digit_02.
  intros H Hl.
  destruct u as [|a [|b [|c [|d [|e [|f r]]]]]]; simpl in H, Hl;
    try discriminate; bool_prop; try discriminate; subst;
    repeat constructor; try lia; try (exfalso; lia).
Qed.

Lemma regex_nonempty (u : pystr) : _ARPABET_RE_match u = true -> u <> [].
Proof. destruct u; [discriminate | discriminate]. Qed.

Lemma graphic_strip_fixed (u : pystr) :
  Forall (fun c => 0x21 <= c <= 0x7E) u -> strip u = u.
Proof.
  intros H. apply strip_fixed.
  - destruct H as [|c r Hc _]; [exact I | apply isspace_ascii_graphic, Hc].
  - assert (Hr : Forall (fun c => 0x21 <= c <= 0x7E) (rev u))
      by (apply Forall_rev; assumption).
    destruct Hr as [|c r Hc _]; [exact I | apply isspace_ascii_graphic, Hc].
Qed.

Lemma Forall_range_weaken (lo hi lo' hi' : Z) (u : pystr) :
  lo' <= lo -> hi <= hi' ->
  Forall (fun c => lo <= c <= hi) u -> Forall (fun c => lo' <= c <= hi') u.
Proof. intros; eapply Forall_impl; [|eassumption]; simpl; intros; lia. Qed.

(** A string of digits and capitals whose lowercase form is a noise token
    is SPN or SIL. *)
Lemma lower_noise_canonical (u : pystr) :
  Forall (fun c => 0x30 <= c <= 0x5A) u ->
  In (map ascii_tolower u) noise_tokens -> u = py "SPN" \/ u = py "SIL".
Proof.
  intros HF Hin.
  assert (Hinv : forall c k, 0x30 <= c <= 0x5A -> 0x61 <= k ->
                             k = ascii_tolower c -> c = k - 0x20).
  { intros c k Hc Hk. unfold ascii_tolower.
    destruct ((0x41 <=? c) && (c <=? 0x5A)) eqn:E; bool_prop; lia. }
  destruct u as [|a [|b [|c [|d r]]]]; simpl in Hin;
    try (destruct Hin as [Hin|[Hin|[]]]; discriminate Hin).
  inversion HF as [|? ? Ha HF1]; subst.
  inversion HF1 as [|? ? Hb HF2]; subst.
  inversion HF2 as [|? ? Hc _]; subst.
  destruct Hin as [Hin|[Hin|[]]]; inversion Hin as [[E1 E2 E3]];
    apply Hinv in E1; try lia; apply Hinv in E2; try lia;
    apply Hinv in E3; try lia; subst; [left | right]; reflexivity.
Qed.

(** Canonical ARPABET text other than SPN and SIL is a fixed point of the
    mapper. *)
Lemma convert_canonical (u : pystr) (s : option Z) :
  _ARPABET_RE_match u = true ->
  Forall (fun c => 0x30 <= c <= 0x5A) u ->
  u <> py "SPN" -> u <> py "SIL" ->
  ipa_phone_to_arpabet u s = u.
Proof.
  intros Hre HF Hspn Hsil.
  assert (Hstrip : strip u = u)
    by (apply graphic_strip_fixed, (Forall_range_weaken 0x30 0x5A); [lia..|assumption]).
  assert (Hup : upper u = u)
    by (apply upper_below_a; eapply Forall_impl; [|exact HF]; simpl; intros; lia).
  assert (Hlow : lower u = map ascii_tolower u)
    by (apply lower_ascii; eapply Forall_impl; [|exact HF]; simpl; intros; lia).
  rewrite convert_arpabet; rewrite ?Hstrip.
  - rewrite Hup. destruct (str_eqb u (py "SPN")) eqn:E; [|reflexivity].
    apply str_eqb_eq in E. contradiction.
  - apply regex_nonempty; assumption.
  - destruct (str_in (lower u) noise_tokens) eqn:E; [|reflexivity].
    apply str_in_In in E. rewrite Hlow in E.
    destruct (lower_noise_canonical u HF E); contradiction.
  - unfold _looks_like_arpabet. rewrite Hstrip, Hup, Hre. apply orb_true_r.
Qed.

(** *** ASCII letters and digits *)

Lemma upper_ascii (s : pystr) :
  Forall (fun c => c < 0x80) s -> upper s = map ascii_toupper s.
Proof.
  unfold upper. induction 1 as [|c r Hc _ IH]; simpl; [reflexivity|].
  unfold to_upper_full at 1. rewrite (proj2 (Z.ltb_lt c 0x80)) by lia.
  simpl. rewrite IH. reflexivity.
Qed.

Lemma letter_ascii (c : Z) : is_ascii_letter c = true -> c < 0x80.
Proof. unfold is_ascii_letter, is_upper_AZ. intros H; bool_prop; lia. Qed.

Lemma digit_ascii (c : Z) : is_digit_02 c = true -> c < 0x80.
Proof. unfold is_digit_02. intros H; bool_prop; lia. Qed.

Lemma toupper_letter (c : Z) :
  is_ascii_letter c = true -> is_upper_AZ (ascii_toupper c) = true.
Proof.
  unfold is_ascii_letter, is_upper_AZ, ascii_toupper. intros H.
  destruct ((0x61 <=? c) && (c <=? 0x7A)) eqn:E; bool_prop;
    apply andb_true_iff; split; apply Z.leb_le; lia.
Qed.

Lemma toupper_digit (c : Z) : is_digit_02 c = true -> ascii_toupper c = c.
Proof.
  unfold is_digit_02, ascii_toupper. intros H.
  destruct ((0x61 <=? c) && (c <=? 0x7A)) eqn:E; bool_prop; lia.
Qed.

Lemma toupper_tolower (c k : Z) :
  ascii_toupper c = k -> 0x41 <= k <= 0x5A -> ascii_tolower c = k + 0x20.
Proof.
  unfold ascii_toupper, ascii_tolower. intros H Hk.
  destruct ((0x61 <=? c) && (c <=? 0x7A)) eqn:E1;
    destruct ((0x41 <=? c) && (c <=? 0x5A)) eqn:E2; bool_prop; lia.
Qed.

Lemma ascii_arpabet_like_ascii (p : pystr) :
  ascii_arpabet_like p = true -> Forall (fun c => c < 0x80) p.
Proof.
  intros H.
  destruct p as [|a [|b [|c [|d [|e r]]]]]; simpl in H; try discriminate;
    bool_prop;
    repeat match goal with
      | H : is_ascii_letter _ = true |- _ => apply letter_ascii in H
      | H : is_digit_02 _ = true |- _ => apply digit_ascii in H
      end; repeat constructor; assumption.
Qed.

Lemma ascii_arpabet_like_regex (p : pystr) :
  ascii_arpabet_like p = true -> _ARPABET_RE_match (map ascii_toupper p) = true.
Proof.
  intros H.
  destruct p as [|a [|b [|c [|d [|e r]]]]]; simpl in H; try discriminate;
    bool_prop; unfold _ARPABET_RE_match, arpabet_tail; cbn [map];
    repeat match goal with
      | H : is_ascii_letter ?x = true |- _ =>
          rewrite (toupper_letter x H); clear H
      | H : is_digit_02 ?x = true |- _ =>
          rewrite (toupper_digit x H), ?H; clear H
      end; btauto.
Qed.

Lemma ascii_arpabet_like_spn (p : pystr) :
  ascii_arpabet_like p = true ->
  map ascii_toupper p = py "SPN" -> map ascii_tolower p = py "spn".
Proof.
  intros H E.
  destruct p as [|a [|b [|c [|d r]]]]; try discriminate E.
  inversion E as [[Ea Eb Ec]].
  apply toupper_tolower in Ea, Eb, Ec; try lia.
  cbn [map]. rewrite Ea, Eb, Ec. reflexivity.
Qed.

(** Lines 150-152 on ASCII letters: capitals, whatever the table says. *)
Lemma convert_ascii_arpabet_like (phone : pystr) (s : option Z) :
  ascii_arpabet_like (strip phone) = true ->
  str_in (lower (strip phone)) noise_tokens = false ->
  ipa_phone_to_arpabet phone s = upper (strip phone).
Proof.
  intros Hlike Hnoise.
  pose proof (ascii_arpabet_like_ascii _ Hlike) as Hascii.
  pose proof (upper_ascii _ Hascii) as Hup.
  rewrite convert_arpabet.
  - destruct (str_eqb (upper (strip phone)) (py "SPN")) eqn:E; [|reflexivity].
    apply str_eqb_eq in E. rewrite Hup in E.
    apply (ascii_arpabet_like_spn _ Hlike) in E.
    rewrite <- (lower_ascii _ Hascii) in E.
    rewrite E in Hnoise. discriminate Hnoise.
  - intros E. rewrite E in Hlike. discriminate Hlike.
  - assumption.
  - unfold _looks_like_arpabet. rewrite strip_idem, Hup.
    rewrite (ascii_arpabet_like_regex _ Hlike). apply orb_true_r.
Qed.

(** The keys of the table that line 150 takes for ARPABET when they are the
    input: the mapper returns them in capitals and does not use their
    entries. *)
Example shadowed_keys :
  map fst
    (filter (fun kv => ascii_arpabet_like (fst kv) &&
                       negb (str_in (fst kv) noise_tokens)) IPA_TO_ARPABET)
  = map py [ "aj"; "aw"; "ej"; "ow"; "i"; "u"; "b"; "d"; "f"; "g"; "h"; "k";
             "l"; "m"; "n"; "p"; "r"; "s"; "t"; "v"; "w"; "j"; "z" ]%string.
Proof. vm_compute. reflexivity. Qed.

(** ** The claims about the phone mapper *)

(** C1 (the code departs from the claim).  The ASCII-style diphthongs aj, aw,
    ej and ow are keys of the mapping table, but each is made of two ASCII
    letters, so line 150 takes it for ARPABET and returns it in capitals
    before the table is read: under policy 1, aj gives AJ where the
    canonical spelling gives AY1, and likewise AW for AW1, EJ for EY1 and OW
    for OW1.  Only the fifth pair, whose first letter is not ASCII, agrees:
    both spellings give OY1. *)
Theorem C1_ascii_diphthongs_shadowed :
  ipa_phone_to_arpabet (py "aj") (Some 1) = py "AJ" /\
  ipa_phone_to_arpabet (py "aɪ") (Some 1) = py "AY1" /\
  ipa_phone_to_arpabet (py "aw") (Some 1) = py "AW" /\
  ipa_phone_to_arpabet (py "aʊ") (Some 1) = py "AW1" /\
  ipa_phone_to_arpabet (py "ej") (Some 1) = py "EJ" /\
  ipa_phone_to_arpabet (py "eɪ") (Some 1) = py "EY1" /\
  ipa_phone_to_arpabet (py "ow") (Some 1) = py "OW" /\
  ipa_phone_to_arpabet (py "oʊ") (Some 1) = py "OW1" /\
  ipa_phone_to_arpabet (py "ɔj") (Some 1) = py "OY1" /\
  ipa_phone_to_arpabet (py "ɔɪ") (Some 1) = py "OY1".
Proof. repeat split; vm_compute; reflexivity. Qed.

(** C2 (the code departs from the claim).  The vowel i is a key of the
    mapping table with base IY, but it is one ASCII letter, so line 150
    returns it as I under every policy and no stress digit is appended.  The
    stress logic itself does what the claim says on a vowel that reaches the
    table: the near-close vowel (U+026A) gives IH1, IH and IH0. *)
Theorem C2_vowel_i_returned_as_I :
  ipa_phone_to_arpabet (py "i") (Some 1) = py "I" /\
  ipa_phone_to_arpabet (py "i") None = py "I" /\
  ipa_phone_to_arpabet (py "i") (Some 0) = py "I" /\
  ipa_phone_to_arpabet (py "ɪ") (Some 1) = py "IH1" /\
  ipa_phone_to_arpabet (py "ɪ") None = py "IH" /\
  ipa_phone_to_arpabet (py "ɪ") (Some 0) = py "IH0".
Proof. repeat split; vm_compute; reflexivity. Qed.

(** C3 as claimed fails on the noise tokens: sil is three ASCII letters, and
    it is returned in lowercase by line 147, not in capitals. *)
Lemma C3_counterexample_sil :
  ascii_arpabet_like (strip (py "sil")) = true /\
  ipa_phone_to_arpabet (py "sil") (Some 1) <> upper (strip (py "sil")).
Proof. split; vm_compute; [reflexivity | discriminate]. Qed.

(** C3 (amended).  For every input whose stripped form is one to three ASCII
    letters of either case, possibly followed by 0, 1 or 2, and is not spn or
    sil once lowercased, the mapper returns the stripped form in capitals,
    whatever the stress policy; in particular h gives H and ow gives OW. *)
Theorem C3_arpabet_like_uppercased :
  (forall (phone : pystr) (s : option Z),
      ascii_arpabet_like (strip phone) = true ->
      str_in (lower (strip phone)) noise_tokens = false ->
      ipa_phone_to_arpabet phone s = upper (strip phone)) /\
  (forall s, ipa_phone_to_arpabet (py "h") s = py "H") /\
  (forall s, ipa_phone_to_arpabet (py "ow") s = py "OW").
Proof.
  split; [exact convert_ascii_arpabet_like|].
  split; intros s; vm_compute; reflexivity.
Qed.

Lemma C3_witness :
  ascii_arpabet_like (strip (py " ay1 ")) = true /\
  str_in (lower (strip (py " ay1 "))) noise_tokens = false /\
  ipa_phone_to_arpabet (py " ay1 ") None = upper (strip (py " ay1 ")).
Proof.
  split; [reflexivity | split; [reflexivity|]].
  apply (proj1 C3_arpabet_like_uppercased); reflexivity.
Defined.

(** C5.  Under every stress policy, none included, the schwa (U+0259) gives
    AH0 and the rhotic schwa (U+025A) gives ER0; and whenever the table value
    found for a phone ends, in capitals, with 0, 1 or 2, that value in
    capitals is returned whatever the policy. *)
Theorem C5_fixed_stress_override :
  (forall s, ipa_phone_to_arpabet (py "ə") s = py "AH0") /\
  (forall s, ipa_phone_to_arpabet (py "ɚ") s = py "ER0") /\
  (forall (phone base : pystr) (s : option Z),
      strip phone <> [] ->
      str_in (lower (strip phone)) noise_tokens = false ->
      _looks_like_arpabet (strip phone) = false ->
      match dict_get (strip phone) IPA_TO_ARPABET with
      | Some b => Some b
      | None => dict_get (lower (strip phone)) IPA_TO_ARPABET
      end = Some base ->
      endswith_any (upper base) [py "0"; py "1"; py "2"] = true ->
      ipa_phone_to_arpabet phone s = upper base).
Proof.
  split; [|split]; [intros s; vm_compute; reflexivity.. |].
  intros phone base s Hne Hnoise Hlooks Hget Hend.
  rewrite (convert_mapped phone s base Hne Hnoise Hlooks Hget), Hend.
  reflexivity.
Qed.

Lemma C5_witness :
  ipa_phone_to_arpabet (py " ər") (Some 2) = upper (py "ER0").
Proof.
  apply (proj2 (proj2 C5_fixed_stress_override) (py " ər") (py "ER0") (Some 2)).
  all: vm_compute; solve [reflexivity | discriminate].
Defined.

(** C6.  An input whose stripped form is not empty, is not a noise token,
    does not look like ARPABET and is a key of the mapping table neither as it
    is nor lowercased comes back stripped and otherwise unchanged.  The
    mapper is a total function: no input makes it fail. *)
Theorem C6_unknown_passthrough (phone : pystr) (s : option Z) :
  strip phone <> [] ->
  str_in (lower (strip phone)) noise_tokens = false ->
  _looks_like_arpabet (strip phone) = false ->
  dict_get (strip phone) IPA_TO_ARPABET = None ->
  dict_get (lower (strip phone)) IPA_TO_ARPABET = None ->
  ipa_phone_to_arpabet phone s = strip phone.
Proof. apply convert_unknown. Qed.

(** The bilabial click (U+0298) under policy 1. *)
Lemma C6_witness : ipa_phone_to_arpabet (py "ʘ") (Some 1) = py "ʘ".
Proof.
  refine (eq_trans (C6_unknown_passthrough (py "ʘ") (Some 1) _ _ _ _ _) _).
  all: vm_compute; solve [reflexivity | discriminate].
Defined.

(** C7.  Under every stress policy spn gives spn and SIL gives sil; and any
    input whose stripped, lowercased form is spn or sil comes back as that
    lowercase form: it is not looked up and gets no stress digit. *)
Theorem C7_noise_preserved :
  (forall s, ipa_phone_to_arpabet (py "spn") s = py "spn") /\
  (forall s, ipa_phone_to_arpabet (py "SIL") s = py "sil") /\
  (forall (phone : pystr) (s : option Z),
      In (lower (strip phone)) [py "spn"; py "sil"] ->
      ipa_phone_to_arpabet phone s = lower (strip phone)).
Proof.
  split; [|split]; [intros s; vm_compute; reflexivity.. |].
  intros phone s Hin. apply convert_noise, str_in_In. exact Hin.
Qed.

Lemma C7_witness :
  ipa_phone_to_arpabet (py "  Spn ") (Some 2) = lower (strip (py "  Spn ")).
Proof.
  apply (proj2 (proj2 C7_noise_preserved)). left. vm_compute. reflexivity.
Defined.

(** ** Outputs of the mapper are fixed points, SIL apart *)

Lemma convert_cases (phone : pystr) (s : option Z) :
  let p := strip phone in
  let r := ipa_phone_to_arpabet phone s in
  (p = [] /\ r = phone) \/
  (p <> [] /\ str_in (lower p) noise_tokens = true /\ r = lower p) \/
  (p <> [] /\ str_in (lower p) noise_tokens = false /\
   _looks_like_arpabet p = true /\
   r = if str_eqb (upper p) (py "SPN") then py "spn" else upper p) \/
  (p <> [] /\ str_in (lower p) noise_tokens = false /\
   _looks_like_arpabet p = false /\
   dict_get p IPA_TO_ARPABET = None /\
   dict_get (lower p) IPA_TO_ARPABET = None /\ r = p) \/
  (exists k base,
      p <> [] /\ str_in (lower p) noise_tokens = false /\
      _looks_like_arpabet p = false /\
      (k = p \/ k = lower p) /\ In (k, base) IPA_TO_ARPABET /\
      r = if endswith_any (upper base) [py "0"; py "1"; py "2"]
          then upper base
          else match s with
               | Some d => if str_in (upper base) VOWEL_BASES
                           then upper base ++ str_of_int d else upper base
               | None => upper base
               end).
Proof.
  intros p r. subst r.
  destruct p as [|c0 r0] eqn:Ep.
  { left. split; [reflexivity | apply convert_blank; exact Ep]. }
  assert (Hne : strip phone <> []) by (subst p; rewrite Ep; discriminate).
  rewrite <- Ep. subst p. right.
  destruct (str_in (lower (strip phone)) noise_tokens) eqn:Hnoise.
  { left. repeat split; [assumption | apply convert_noise; assumption]. }
  right.
  destruct (_looks_like_arpabet (strip phone)) eqn:Hlooks.
  { left. repeat split; try assumption. apply convert_arpabet; assumption. }
  right.
  destruct (dict_get (strip phone) IPA_TO_ARPABET) as [base|] eqn:H1.
  { right. exists (strip phone), base. repeat split; try assumption.
    - left; reflexivity.
    - apply dict_get_In; assumption.
    - apply convert_mapped; try assumption. rewrite H1. reflexivity. }
  destruct (dict_get (lower (strip phone)) IPA_TO_ARPABET) as [base|] eqn:H2.
  { right. exists (lower (strip phone)), base. repeat split; try assumption.
    - right; reflexivity.
    - apply dict_get_In; assumption.
    - apply convert_mapped; try assumption. rewrite H1. exact H2. }
  left. repeat split; try assumption. apply convert_unknown; assumption.
Qed.

(** *** The text of an integer *)

Lemma uint_digits_range (u : Decimal.uint) :
  Forall (fun c => 0x2D <= c <= 0x39) (uint_digits u).
Proof. induction u; simpl; constructor; try assumption; lia. Qed.

Lemma str_of_int_text (n : Z) :
  str_of_int n <> [] /\ Forall (fun c => 0x2D <= c <= 0x39) (str_of_int n).
Proof.
  unfold str_of_int. destruct n as [|q|q]; simpl.
  - split; [discriminate | repeat constructor; lia].
  - split; [|apply uint_digits_range].
    pose proof (Unsigned.to_uint_nonnil q) as H.
    destruct (Pos.to_uint q); simpl; congruence.
  - split; [discriminate|]. constructor; [lia | apply uint_digits_range].
Qed.

(** Two capitals followed by the text of an integer match the pattern only
    when that text is one of the digits 0, 1, 2. *)
Lemma regex_letters_text (x y : Z) (t : pystr) :
  Forall (fun c => 0x2D <= c <= 0x39) t -> t <> [] ->
  (forall c, t = [c] -> is_digit_02 c = false) ->
  _ARPABET_RE_match (x :: y :: t) = false.
Proof.
  intros HF Hne Hone.
  destruct t as [|c r]; [contradiction|].
  inversion HF as [|? ? Hc HF']; subst.
  assert (Hc10 : (c =? 0x0A) = false) by (apply Z.eqb_neq; lia).
  assert (HcAZ : is_upper_AZ c = false)
    by (unfold is_upper_AZ; apply andb_false_iff; left; apply Z.leb_gt; lia).
  unfold _ARPABET_RE_match. rewrite HcAZ.
  destruct r as [|n r'].
  - cbn [arpabet_tail]. rewrite (Hone c eq_refl), Hc10. btauto.
  - inversion HF' as [|? ? Hn _]; subst.
    assert (Hn10 : (n =? 0x0A) = false) by (apply Z.eqb_neq; lia).
    destruct r' as [|m r'']; cbn [arpabet_tail]; rewrite ?Hn10; btauto.
Qed.

(** Text made of capitals, digits and the signs between them, which is not a
    noise token, does not match the pattern and is no key of the table, is
    returned as it is. *)
Lemma convert_plain_unknown (w : pystr) (s : option Z) :
  Forall (fun c => 0x2D <= c <= 0x5A) w -> w <> [] ->
  str_in (map ascii_tolower w) noise_tokens = false ->
  str_eqb w (py "SPN") = false ->
  _ARPABET_RE_match w = false ->
  dict_get w IPA_TO_ARPABET = None ->
  dict_get (map ascii_tolower w) IPA_TO_ARPABET = None ->
  ipa_phone_to_arpabet w s = w.
Proof.
  intros HF Hne Hnoise Hspn Hre H1 H2.
  assert (Hstrip : strip w = w)
    by (apply graphic_strip_fixed, (Forall_range_weaken 0x2D 0x5A); [lia..|assumption]).
  assert (Hup : upper w = w)
    by (apply upper_below_a; eapply Forall_impl; [|exact HF]; simpl; intros; lia).
  assert (Hlow : lower w = map ascii_tolower w)
    by (apply lower_ascii; eapply Forall_impl; [|exact HF]; simpl; intros; lia).
  rewrite <- Hstrip at 2.
  apply convert_unknown; rewrite ?Hstrip, ?Hlow; try assumption.
  unfold _looks_like_arpabet. rewrite Hstrip, Hup, Hspn, Hre. reflexivity.
Qed.

Lemma tolower_text (t : pystr) :
  Forall (fun c => 0x2D <= c <= 0x39) t -> map ascii_tolower t = t.
Proof.
  induction 1 as [|c r Hc _ IH]; simpl; [reflexivity|].
  rewrite IH. unfold ascii_tolower.
  rewrite (proj2 (Z.leb_gt 0x41 c)) by lia. reflexivity.
Qed.

(** A vowel base followed by the text of an integer is a fixed point. *)
Lemma convert_vowel_text (b t : pystr) (s : option Z) :
  In b VOWEL_BASES -> t <> [] ->
  Forall (fun c => 0x2D <= c <= 0x39) t ->
  ipa_phone_to_arpabet (b ++ t) s = b ++ t.
Proof.
  intros Hb Hne HF.
  assert (Hcanon : forall c, t = [c] -> is_digit_02 c = true ->
                             ipa_phone_to_arpabet (b ++ t) s = b ++ t).
  { intros c -> Hd. unfold is_digit_02 in Hd.
    simpl in Hb.
    repeat (destruct Hb as [<-|Hb]; [|]); try contradiction;
      (apply convert_canonical;
       [ unfold _ARPABET_RE_match, arpabet_tail, is_digit_02; simpl;
         rewrite Hd; reflexivity
       | bool_prop; repeat constructor; lia
       | discriminate
       | discriminate ]). }
  destruct t as [|c r]; [contradiction|].
  destruct (match r with [] => is_digit_02 c | _ :: _ => false end) eqn:Hshape.
  { destruct r; [|discriminate]. apply (Hcanon c eq_refl Hshape). }
  assert (Hone : forall c', c :: r = [c'] -> is_digit_02 c' = false)
    by (intros c' E; inversion E; subst; exact Hshape).
  assert (Hlow : map ascii_tolower (c :: r) = c :: r) by (apply tolower_text, HF).
  simpl in Hb.
  repeat (destruct Hb as [<-|Hb]; [|]); try contradiction;
    (apply convert_plain_unknown;
     [ apply Forall_app; split;
       [ repeat constructor; lia
       | eapply Forall_impl; [|exact HF]; simpl; intros; lia ]
     | discriminate
     | rewrite map_app, Hlow; reflexivity
     | reflexivity
     | apply regex_letters_text; assumption
     | reflexivity
     | rewrite map_app, Hlow; reflexivity ]).
Qed.

(** Every value of the table, the two noise entries apart, is canonical
    ARPABET once put in capitals. *)
Lemma table_values_canonical (k base : pystr) :
  In (k, base) IPA_TO_ARPABET -> str_in k noise_tokens = false ->
  _ARPABET_RE_match (upper base) = true /\
  Forall (fun c => 0x30 <= c <= 0x5A) (upper base) /\
  upper base <> py "SPN" /\ upper base <> py "SIL".
Proof.
  intros Hin Hk.
  assert (Hall :
    forallb (fun kv =>
      str_in (fst kv) noise_tokens ||
      (_ARPABET_RE_match (upper (snd kv)) &&
       forallb (fun c => (0x30 <=? c) && (c <=? 0x5A)) (upper (snd kv)) &&
       negb (str_eqb (upper (snd kv)) (py "SPN")) &&
       negb (str_eqb (upper (snd kv)) (py "SIL"))))
      IPA_TO_ARPABET = true) by (vm_compute; reflexivity).
  rewrite forallb_forall in Hall. specialize (Hall _ Hin).
  cbn [fst snd] in Hall. rewrite Hk in Hall. cbn [orb] in Hall.
  apply andb_true_iff in Hall. destruct Hall as [Hall Hsil].
  apply andb_true_iff in Hall. destruct Hall as [Hall Hspn].
  apply andb_true_iff in Hall. destruct Hall as [Hre Hrange].
  repeat split.
  - exact Hre.
  - rewrite forallb_forall in Hrange. apply Forall_forall.
    intros c Hc. specialize (Hrange c Hc). bool_prop. lia.
  - apply str_eqb_neq, negb_true_iff, Hspn.
  - apply str_eqb_neq, negb_true_iff, Hsil.
Qed.

Lemma noise_before_lower (p : pystr) :
  str_in (lower p) noise_tokens = false -> str_in p noise_tokens = false.
Proof.
  intros H. destruct (str_in p noise_tokens) eqn:E; [|reflexivity].
  apply str_in_In in E. destruct E as [<-|[<-|[]]]; vm_compute in H; discriminate H.
Qed.

Lemma convert_fixed_point (x : pystr) (s : option Z) :
  ipa_phone_to_arpabet x s <> py "SIL" ->
  ipa_phone_to_arpabet (ipa_phone_to_arpabet x s) s = ipa_phone_to_arpabet x s.
Proof.
  intros Hsil.
  destruct (convert_cases x s)
    as [[Hp Hr] | [(Hne & Hnoise & Hr) | [(Hne & Hnoise & Hlooks & Hr)
       | [(Hne & Hnoise & Hlooks & H1 & H2 & Hr)
       | (k & base & Hne & Hnoise & Hlooks & Hk & Hin & Hr)]]]];
    rewrite Hr in Hsil |- *.
  - exact Hr.
  - apply str_in_In in Hnoise.
    destruct Hnoise as [<-|[<-|[]]]; vm_compute; reflexivity.
  - destruct (str_eqb (upper (strip x)) (py "SPN")) eqn:E;
      [vm_compute; reflexivity|].
    unfold _looks_like_arpabet in Hlooks.
    rewrite strip_idem, E in Hlooks. cbn [orb] in Hlooks.
    apply convert_canonical.
    + exact Hlooks.
    + apply regex_chars; [exact Hlooks | apply upper_strip_last].
    + apply str_eqb_neq; exact E.
    + exact Hsil.
  - rewrite <- (strip_idem x) at 2.
    apply convert_unknown; rewrite strip_idem; assumption.
  - assert (Hknoise : str_in k noise_tokens = false)
      by (destruct Hk as [-> | ->];
          [apply noise_before_lower; assumption | assumption]).
    destruct (table_values_canonical k base Hin Hknoise)
      as (Hre & Hrange & Hnspn & Hnsil).
    destruct (endswith_any (upper base) [py "0"; py "1"; py "2"]);
      [apply convert_canonical; assumption|].
    destruct s as [d|]; [|apply convert_canonical; assumption].
    destruct (str_in (upper base) VOWEL_BASES) eqn:Ev;
      [|apply convert_canonical; assumption].
    apply str_in_In in Ev.
    destruct (str_of_int_text d) as [Hd1 Hd2].
    apply convert_vowel_text; assumption.
Qed.

(** Only an input that looks like ARPABET and has SIL as its capitals, without
    having sil as its lowercase form, comes out as SIL. *)
Lemma convert_SIL (x : pystr) (s : option Z) :
  ipa_phone_to_arpabet x s = py "SIL" ->
  _looks_like_arpabet x = true /\
  upper (strip x) = py "SIL" /\ lower (strip x) <> py "sil".
Proof.
  intros Hsil.
  destruct (convert_cases x s)
    as [[Hp Hr] | [(Hne & Hnoise & Hr) | [(Hne & Hnoise & Hlooks & Hr)
       | [(Hne & Hnoise & Hlooks & H1 & H2 & Hr)
       | (k & base & Hne & Hnoise & Hlooks & Hk & Hin & Hr)]]]];
    rewrite Hr in Hsil.
  - subst x. vm_compute in Hp. discriminate Hp.
  - apply str_in_In in Hnoise. rewrite Hsil in Hnoise.
    destruct Hnoise as [E|[E|[]]]; discriminate E.
  - destruct (str_eqb (upper (strip x)) (py "SPN")); [discriminate Hsil|].
    unfold _looks_like_arpabet in Hlooks |- *. rewrite strip_idem in Hlooks.
    repeat split; try assumption.
    intros E. rewrite E in Hnoise. vm_compute in Hnoise. discriminate Hnoise.
  - exfalso. rewrite Hsil in Hlooks. vm_compute in Hlooks.
    discriminate Hlooks.
  - exfalso.
    assert (Hknoise : str_in k noise_tokens = false)
      by (destruct Hk as [-> | ->];
          [apply noise_before_lower; assumption | assumption]).
    destruct (table_values_canonical k base Hin Hknoise)
      as (Hre & Hrange & Hnspn & Hnsil).
    destruct (endswith_any (upper base) [py "0"; py "1"; py "2"]);
      [contradiction|].
    destruct s as [d|]; [|contradiction].
    destruct (str_in (upper base) VOWEL_BASES) eqn:Ev; [|contradiction].
    apply str_in_In in Ev. simpl in Ev.
    repeat (destruct Ev as [Ev|Ev]; [rewrite <- Ev in Hsil; discriminate Hsil|]).
    contradiction.
Qed.

Lemma ascii_arpabet_like_sil (p : pystr) :
  Forall (fun c => c < 0x80) p ->
  upper p = py "SIL" -> lower p = py "sil".
Proof.
  intros Hascii E. rewrite (upper_ascii _ Hascii) in E.
  rewrite (lower_ascii _ Hascii).
  destruct p as [|a [|b [|c [|d r]]]]; try discriminate E.
  inversion E as [[Ea Eb Ec]].
  apply toupper_tolower in Ea, Eb, Ec; try lia.
  cbn [map]. rewrite Ea, Eb, Ec. reflexivity.
Qed.

Lemma ascii_arpabet_like_looks (x : pystr) :
  ascii_arpabet_like (strip x) = true -> _looks_like_arpabet x = true.
Proof.
  intros H. unfold _looks_like_arpabet.
  rewrite (upper_ascii _ (ascii_arpabet_like_ascii _ H)).
  rewrite (ascii_arpabet_like_regex _ H). apply orb_true_r.
Qed.

(** C8 as claimed fails: with a dotless i (U+0131) the input passes the test
    of line 150, since its capitals are SIL, and is returned as SIL; a second
    application takes SIL for the noise token and returns sil. *)
Lemma C8_counterexample_dotless_i :
  _looks_like_arpabet (py "sıl") = true /\
  ipa_phone_to_arpabet (ipa_phone_to_arpabet (py "sıl") (Some 1)) (Some 1)
    <> ipa_phone_to_arpabet (py "sıl") (Some 1).
Proof. split; vm_compute; [reflexivity | discriminate]. Qed.

(** C8 (amended).  Applying the mapper twice gives what applying it once
    gives, for every input that looks like ARPABET by the test of the script,
    unless its stripped form has SIL as capitals without having sil as
    lowercase form; in particular for every input made of one to three ASCII
    letters of either case and possibly one of the digits 0, 1, 2, with or
    without white space around. *)
Theorem C8_arpabet_like_idempotent :
  (forall (x : pystr) (s : option Z),
      _looks_like_arpabet x = true ->
      (upper (strip x) = py "SIL" -> lower (strip x) = py "sil") ->
      ipa_phone_to_arpabet (ipa_phone_to_arpabet x s) s
        = ipa_phone_to_arpabet x s) /\
  (forall (x : pystr) (s : option Z),
      ascii_arpabet_like (strip x) = true ->
      _looks_like_arpabet x = true /\
      ipa_phone_to_arpabet (ipa_phone_to_arpabet x s) s
        = ipa_phone_to_arpabet x s).
Proof.
  split.
  - intros x s _ Hsil. apply convert_fixed_point. intros E.
    destruct (convert_SIL x s E) as (_ & Hu & Hl). apply Hl, Hsil, Hu.
  - intros x s Hlike. split; [apply ascii_arpabet_like_looks, Hlike|].
    apply convert_fixed_point. intros E.
    destruct (convert_SIL x s E) as (_ & Hu & Hl). apply Hl.
    apply ascii_arpabet_like_sil; [|exact Hu].
    apply ascii_arpabet_like_ascii, Hlike.
Qed.

Lemma C8_witness :
  ipa_phone_to_arpabet (ipa_phone_to_arpabet (py " Sil ") (Some 1)) (Some 1)
    = ipa_phone_to_arpabet (py " Sil ") (Some 1) /\
  ipa_phone_to_arpabet (ipa_phone_to_arpabet (py "ay2") None) None
    = ipa_phone_to_arpabet (py "ay2") None.
Proof.
  split.
  - apply (proj1 C8_arpabet_like_idempotent);
      [vm_compute; reflexivity | intros _; vm_compute; reflexivity].
  - apply (proj2 C8_arpabet_like_idempotent). vm_compute; reflexivity.
Defined.

(** C9 as claimed fails: with a long s (U+017F) the input is returned as SIL,
    which the mapper then turns into sil. *)
Lemma C9_counterexample_long_s :
  ipa_phone_to_arpabet (ipa_phone_to_arpabet (py "ſil") None) None
    <> ipa_phone_to_arpabet (py "ſil") None.
Proof. vm_compute; discriminate. Qed.

(** C9 (amended).  For every string and every stress policy (any integer or
    none), the output of the mapper is a fixed point of the mapper unless that
    output is SIL; then the mapper turns it into sil, and the input is one
    whose stripped form has SIL as capitals without having sil as lowercase
    form. *)
Theorem C9_outputs_fixed_unless_SIL (x : pystr) (s : option Z) :
  (ipa_phone_to_arpabet x s <> py "SIL" ->
   ipa_phone_to_arpabet (ipa_phone_to_arpabet x s) s
     = ipa_phone_to_arpabet x s) /\
  (ipa_phone_to_arpabet x s = py "SIL" ->
   ipa_phone_to_arpabet (ipa_phone_to_arpabet x s) s = py "sil" /\
   upper (strip x) = py "SIL" /\ lower (strip x) <> py "sil").
Proof.
  split.
  - apply convert_fixed_point.
  - intros E. split; [rewrite E; vm_compute; reflexivity|].
    apply (convert_SIL x s E).
Qed.

Lemma C9_witness :
  ipa_phone_to_arpabet (ipa_phone_to_arpabet (py " ɔɪ") (Some 2)) (Some 2)
    = ipa_phone_to_arpabet (py " ɔɪ") (Some 2) /\
  ipa_phone_to_arpabet (ipa_phone_to_arpabet (py "ſil") None) None = py "sil".
Proof.
  split.
  - apply (proj1 (C9_outputs_fixed_unless_SIL (py " ɔɪ") (Some 2))).
    vm_compute; discriminate.
  - apply (proj2 (C9_outputs_fixed_unless_SIL (py "ſil") None)).
    vm_compute; reflexivity.
Defined.

(** ** The document converter *)

Lemma same_keys_and_refl {V : Type} (R : pystr -> V -> V -> Prop)
  (d : list (pystr * V)) :
  (forall k v, R k v v) -> same_keys_and R d d.
Proof.
  intros HR. unfold same_keys_and.
  induction d as [|kv d IH]; constructor; auto.
Qed.

Lemma same_keys_and_map {V : Type} (R : pystr -> V -> V -> Prop)
  (f : V -> V) (d : list (pystr * V)) :
  (forall k v, R k v (f v)) ->
  same_keys_and R d (map (fun kv => (fst kv, f (snd kv))) d).
Proof.
  intros HR. unfold same_keys_and.
  induction d as [|kv d IH]; simpl; constructor; auto.
Qed.

Lemma same_keys_and_keys {V : Type} (R : pystr -> V -> V -> Prop)
  (d d' : list (pystr * V)) :
  same_keys_and R d d' -> map fst d = map fst d'.
Proof.
  unfold same_keys_and. induction 1 as [|kv kv' d d' [Hk _] _ IH]; simpl;
    congruence.
Qed.

(** [d[k] = v'] on a dict where [k] is bound to [v]: the keys and their order
    stay, and only the value under [k] changes, from [v] to [v']. *)
Lemma dict_set_frame {V : Type} (k : pystr) (v v' : V) (d : list (pystr * V)) :
  dict_get k d = Some v ->
  same_keys_and (fun k0 v0 v0' => v0 = v0' \/ (k0 = k /\ v0 = v /\ v0' = v'))
    d (dict_set k v' d).
Proof.
  unfold same_keys_and.
  induction d as [|[k1 v1] d IH]; simpl; [discriminate|].
  destruct (str_eqb k k1) eqn:E.
  - apply str_eqb_eq in E. intros H; inversion H; subst.
    constructor; [simpl; auto|].
    apply (same_keys_and_refl
             (fun k0 v0 v0' => v0 = v0' \/ (k0 = k1 /\ v0 = v /\ v0' = v')) d).
    auto.
  - intros H. constructor; [simpl; auto | auto].
Qed.

(** The value under [k] mutated by [f]: the keys and their order stay, and
    only the value under [k] changes, from some [v] to [f v]. *)
Lemma dict_mutate_frame {V : Type} (k : pystr) (f : V -> V)
  (d : list (pystr * V)) :
  same_keys_and (fun k0 v0 v0' => v0 = v0' \/ (k0 = k /\ v0' = f v0))
    d (dict_mutate k f d).
Proof.
  unfold same_keys_and.
  induction d as [|[k1 v1] d IH]; simpl; [constructor|].
  destruct (str_eqb k k1) eqn:E.
  - apply str_eqb_eq in E. subst.
    constructor; [simpl; auto|].
    apply (same_keys_and_refl
             (fun k0 v0 v0' => v0 = v0' \/ (k0 = k1 /\ v0' = f v0)) d).
    auto.
  - constructor; [simpl; auto | exact IH].
Qed.

Lemma same_keys_and_impl {V : Type} (R R' : pystr -> V -> V -> Prop)
  (d d' : list (pystr * V)) :
  (forall k v v', R k v v' -> R' k v v') ->
  same_keys_and R d d' -> same_keys_and R' d d'.
Proof.
  intros HR. unfold same_keys_and. apply Forall2_impl.
  intros kv kv' [Hk H]. split; auto.
Qed.

Lemma convert_interval_frame (it : json) (s : option Z) :
  text_frame it (convert_interval it s).
Proof.
  unfold convert_interval, text_frame.
  destruct it as [| | | | |l|d]; try (left; reflexivity).
  destruct (dict_get (py "text") d) as [[| | | |t| |]|] eqn:E;
    try (left; reflexivity).
  right. exists d. eexists. repeat split.
  eapply same_keys_and_impl; [|apply (dict_set_frame _ _ _ _ E)].
  intros k v v' [H|(Hk & Hv & Hv')]; [left; exact H|].
  right. split; [exact Hk|]. eauto.
Qed.

Lemma convert_container_frame (c : json) (s : option Z) :
  container_frame c (_convert_interval_container c s).
Proof.
  unfold _convert_interval_container, container_frame.
  destruct c as [| | | | |l|d]; try (left; reflexivity).
  - right; right. exists l. eexists. repeat split.
    induction l as [|it l IH]; simpl; constructor;
      [apply convert_interval_frame | exact IH].
  - right; left. exists d. eexists. repeat split.
    apply (same_keys_and_map (fun _ => text_frame)
             (fun it => convert_interval it s)).
    intros _ v. apply convert_interval_frame.
Qed.

Lemma convert_per_file_frame (d : list (pystr * json)) (s : option Z) :
  per_file_frame d (convert_per_file s d).
Proof.
  unfold convert_per_file, per_file_frame.
  destruct (dict_has (py "phones") d).
  - eapply same_keys_and_impl; [|apply dict_mutate_frame].
    intros k v v' [H|[Hk Hv]]; [left; exact H|].
    right. split; [exact Hk|]. subst v'. apply convert_container_frame.
  - apply same_keys_and_refl. auto.
Qed.

(** C4.  Whatever the loaded value and the stress policy, the converted
    document has the keys of the original in the same order, at every level,
    and the same values, except that the string bound to text in a dict that
    is an element of a phones container may be another string: the phones of
    the document itself when it has the keys words and phones, the phones of
    each of its dict values otherwise.  A value that is not a dict is
    returned as it is. *)
Theorem C4_convert_document_frame (obj : json) (s : option Z) :
  doc_frame obj (convert_json_obj obj s).
Proof.
  unfold doc_frame, convert_json_obj.
  destruct obj as [| | | | |l|d]; try reflexivity.
  destruct (dict_has (py "words") d && dict_has (py "phones") d).
  - eexists. split; [reflexivity|]. apply convert_per_file_frame.
  - eexists. split; [reflexivity|].
    apply (same_keys_and_map
             (fun _ v v' =>
                v = v' \/
                exists pf pf', v = JDict pf /\ v' = JDict pf' /\
                               per_file_frame pf pf')
             (convert_if_dict s)).
    intros _ v. unfold convert_if_dict. destruct v as [| | | | |l|pf]; try (left; reflexivity).
    right. exists pf. eexists. repeat split. apply convert_per_file_frame.
Qed.

(** The end-to-end example of the specification, under policy 2. *)
Example convert_json_obj_example :
  convert_json_obj
    (JDict [(py "words", JList []);
            (py "phones",
             JDict [(py "0", JDict [(py "text", JStr (py "ɔ"))]);
                    (py "1", JDict [(py "text", JStr (py "spn"))])])])
    (Some 2)
  = JDict [(py "words", JList []);
           (py "phones",
            JDict [(py "0", JDict [(py "text", JStr (py "AO2"))]);
                   (py "1", JDict [(py "text", JStr (py "spn"))])])].
Proof. vm_compute. reflexivity. Qed.

(** The frame relation tells documents apart that differ elsewhere than in a
    phone label: here the start time of the interval differs. *)
Example doc_frame_strict :
  ~ doc_frame
      (JDict [(py "words", JList []);
              (py "phones",
               JList [JDict [(py "text", JStr (py "t")); (py "xmin", JInt 0)]])])
      (JDict [(py "words", JList []);
              (py "phones",
               JList [JDict [(py "text", JStr (py "T")); (py "xmin", JInt 1)]])]).
Proof.
  unfold doc_frame. intros (d' & Hd' & H).
  inversion Hd'; subst d'; clear Hd'.
  change (dict_has (py "words") _ && dict_has (py "phones") _) with true in H.
  cbv iota in H. unfold per_file_frame, same_keys_and in H.
  inversion H as [|? ? ? ? _ H1]; subst; clear H.
  inversion H1 as [|? ? ? ? [_ Hc] _]; subst; clear H1.
  cbn [fst snd] in Hc.
  destruct Hc as [Hc | [_ Hc]]; [discriminate Hc|].
  destruct Hc as [Hc | [(d & d0 & Hc & _) | (l & l' & E & E' & Hl)]];
    try discriminate Hc.
  inversion E; inversion E'; subst; clear E E'.
  inversion Hl as [|? ? ? ? Ht _]; subst; clear Hl.
  destruct Ht as [Ht | (d & d0 & E & E' & Hd)]; [discriminate Ht|].
  inversion E; inversion E'; subst; clear E E'.
  inversion Hd as [|? ? ? ? _ Hd1]; subst; clear Hd.
  inversion Hd1 as [|? ? ? ? [_ Hx] _]; subst; clear Hd1.
  cbn [fst snd] in Hx.
  destruct Hx as [Hx | [Hx _]]; [discriminate Hx|].
  vm_compute in Hx. discriminate Hx.
Qed.

(** ** The validation of [--default_stress] *)

Lemma accepted_iff (value : pystr) :
  accepted value = true <->
  lower value = py "none" \/
  exists n, int_of_str value = Some n /\ 0 <= n <= 2.
Proof.
  unfold accepted, parse_default_stress.
  destruct (str_eqb (lower value) (py "none")) eqn:E.
  - apply str_eqb_eq in E. split; [intros _; left; exact E | reflexivity].
  - apply str_eqb_neq in E.
    destruct (int_of_str value) as [n|].
    + destruct (existsb (Z.eqb n) [0; 1; 2]) eqn:En; simpl.
      * split; [|reflexivity]. intros _. right. exists n. split; [reflexivity|].
        simpl in En. bool_prop; try discriminate; lia.
      * split; [discriminate|]. intros [H|(m & Hm & Hr)]; [contradiction|].
        inversion Hm; subst m. simpl in En. bool_prop. lia.
    + split; [discriminate|]. intros [H|(m & Hm & _)];
        [contradiction | discriminate Hm].
Qed.

Lemma accepted_policy (value : pystr) (policy : option Z) :
  parse_default_stress value = inr policy ->
  policy = None \/ policy = Some 0 \/ policy = Some 1 \/ policy = Some 2.
Proof.
  unfold parse_default_stress.
  destruct (str_eqb (lower value) (py "none")).
  - intros H; inversion H. left; reflexivity.
  - destruct (int_of_str value) as [n|]; [|discriminate].
    destruct (existsb (Z.eqb n) [0; 1; 2]) eqn:En; simpl; [|discriminate].
    intros H; inversion H; subst. simpl in En. right.
    bool_prop; try discriminate; subst; auto.
Qed.

Lemma rejected_message (value : pystr) :
  accepted value = false -> parse_default_stress value = inl usage_message.
Proof.
  unfold accepted, parse_default_stress.
  destruct (str_eqb (lower value) (py "none")); [discriminate|].
  destruct (int_of_str value) as [n|]; [|reflexivity].
  destruct (negb (existsb (Z.eqb n) [0; 1; 2])); [reflexivity | discriminate].
Qed.

(** C10 as claimed fails: the value NONE is not one of the four spellings,
    and neither is +1, but both pass the validation, since the value is
    lowercased before it is compared with none and is otherwise read by
    [int]. *)
Lemma C10_counterexample_NONE :
  accepted (py "NONE") = true /\ accepted (py "+1") = true /\
  ~ In (py "NONE") [py "0"; py "1"; py "2"; py "none"] /\
  ~ In (py "+1") [py "0"; py "1"; py "2"; py "none"].
Proof.
  repeat split; try (vm_compute; reflexivity);
    vm_compute; intros H; repeat (destruct H as [H|H]; [discriminate H|]);
    exact H.
Qed.

(** C10 (amended).  The values 0, 1, 2 and none pass the validation and give
    the policies 0, 1, 2 and none.  A value passes exactly when its lowercase
    form is none or [int] reads it as 0, 1 or 2, and then the policy is one of
    those four.  With any other value the run ends in an error with a
    non-zero exit status and the file system as it was: by [SystemExit] with
    the usage message when the input path could be expanded, by the
    [RuntimeError] of [expanduser] otherwise. *)
Theorem C10_default_stress_validation :
  (parse_default_stress (py "0") = inr (Some 0) /\
   parse_default_stress (py "1") = inr (Some 1) /\
   parse_default_stress (py "2") = inr (Some 2) /\
   parse_default_stress (py "none") = inr None) /\
  (forall value,
      accepted value = true <->
      lower value = py "none" \/
      exists n, int_of_str value = Some n /\ 0 <= n <= 2) /\
  (forall value policy,
      parse_default_stress value = inr policy ->
      policy = None \/ policy = Some 0 \/ policy = Some 1 \/ policy = Some 2) /\
  (forall (world path : Type) (expanduser : pystr -> option path)
          (convert_paths : Args -> path -> option Z -> world -> world * outcome)
          (args : Args) (w : world),
      accepted (default_stress args) = false ->
      let run := main world path expanduser convert_paths args w in
      fst run = w /\ exit_status (snd run) <> 0 /\
      (forall in_path, expanduser (input args) = Some in_path ->
                       snd run = SystemExit usage_message)).
Proof.
  split; [repeat split; vm_compute; reflexivity|].
  split; [exact accepted_iff|].
  split; [exact accepted_policy|].
  intros world path expanduser convert_paths args w Hrej run. subst run.
  unfold main. rewrite (rejected_message _ Hrej).
  destruct (expanduser (input args)) as [in_path|]; simpl.
  - split; [reflexivity | split; [discriminate|]]. intros ? _. reflexivity.
  - split; [reflexivity | split; [discriminate|]]. intros ? H. discriminate H.
Qed.

Lemma C10_witness :
  let args := {| input := py "a.json"; out := None; out_dir := None;
                 inplace := false; default_stress := py "3" |} in
  let run := main unit pystr (fun s => Some s)
               (fun _ _ _ w => (w, Returned 0)) args tt in
  accepted (default_stress args) = false /\
  fst run = tt /\ exit_status (snd run) <> 0 /\
  snd run = SystemExit usage_message.
Proof.
  intros args run.
  assert (Hrej : accepted (default_stress args) = false)
    by (vm_compute; reflexivity).
  destruct (proj2 (proj2 (proj2 C10_default_stress_validation))
              unit pystr (fun s => Some s) (fun _ _ _ w => (w, Returned 0))
              args tt Hrej) as (H1 & H2 & H3).
  split; [exact Hrej|]. split; [exact H1|]. split; [exact H2|].
  apply (H3 (input args)). reflexivity.
Defined.

(** * Further properties of the phone mapper *)

Lemma lstrip_blank (x : pystr) :
  Forall (fun c => isspace c = true) x -> lstrip x = [].
Proof. induction 1 as [|c r Hc _ IH]; simpl; [reflexivity|]. rewrite Hc. exact IH. Qed.

(** White space around a label does not matter: a label that is not blank is
    mapped as its stripped form is. *)
Theorem convert_ignores_outer_space (x : pystr) (s : option Z) :
  strip x <> [] ->
  ipa_phone_to_arpabet x s = ipa_phone_to_arpabet (strip x) s.
Proof.
  intros Hne. unfold ipa_phone_to_arpabet. rewrite strip_idem.
  destruct (strip x) as [|c r]; [contradiction | reflexivity].
Qed.

Lemma convert_ignores_outer_space_witness :
  ipa_phone_to_arpabet (py "  ɪ ") (Some 1)
  = ipa_phone_to_arpabet (strip (py "  ɪ ")) (Some 1).
Proof.
  apply convert_ignores_outer_space. vm_compute. discriminate.
Defined.

(** A label made of white space only, the empty label included, is returned
    as it is, white space and all. *)
Theorem blank_passthrough (x : pystr) (s : option Z) :
  Forall (fun c => isspace c = true) x -> ipa_phone_to_arpabet x s = x.
Proof.
  intros H. apply convert_blank. unfold strip.
  rewrite (lstrip_blank x H). reflexivity.
Qed.

Lemma blank_passthrough_witness :
  ipa_phone_to_arpabet [0x20; 0x09; 0xA0] (Some 1) = [0x20; 0x09; 0xA0].
Proof.
  apply blank_passthrough. repeat constructor.
Defined.

Lemma canonical_trimmed (u : pystr) :
  _ARPABET_RE_match u = true -> Forall (fun c => 0x30 <= c <= 0x5A) u ->
  u <> [] /\ strip u = u.
Proof.
  intros Hre HF. split; [apply regex_nonempty, Hre|].
  apply graphic_strip_fixed, (Forall_range_weaken 0x30 0x5A); [lia..|assumption].
Qed.

(** The label mapped from a label that is not blank is not empty and has no
    white space around it. *)
Theorem convert_nonblank_trimmed (x : pystr) (s : option Z) :
  strip x <> [] ->
  ipa_phone_to_arpabet x s <> [] /\
  strip (ipa_phone_to_arpabet x s) = ipa_phone_to_arpabet x s.
Proof.
  intros Hx.
  destruct (convert_cases x s)
    as [[Hp Hr] | [(Hne & Hnoise & Hr) | [(Hne & Hnoise & Hlooks & Hr)
       | [(Hne & Hnoise & Hlooks & H1 & H2 & Hr)
       | (k & base & Hne & Hnoise & Hlooks & Hk & Hin & Hr)]]]];
    rewrite Hr.
  - contradiction.
  - apply str_in_In in Hnoise.
    destruct Hnoise as [<-|[<-|[]]]; split;
      solve [discriminate | vm_compute; reflexivity].
  - destruct (str_eqb (upper (strip x)) (py "SPN")) eqn:E;
      [split; [discriminate | vm_compute; reflexivity]|].
    unfold _looks_like_arpabet in Hlooks.
    rewrite strip_idem, E in Hlooks. cbn [orb] in Hlooks.
    apply canonical_trimmed; [exact Hlooks|].
    apply regex_chars; [exact Hlooks | apply upper_strip_last].
  - split; [exact Hne | apply strip_idem].
  - assert (Hknoise : str_in k noise_tokens = false)
      by (destruct Hk as [-> | ->];
          [apply noise_before_lower; assumption | assumption]).
    destruct (table_values_canonical k base Hin Hknoise)
      as (Hre & Hrange & _ & _).
    destruct (endswith_any (upper base) [py "0"; py "1"; py "2"]);
      [apply canonical_trimmed; assumption|].
    destruct s as [d|]; [|apply canonical_trimmed; assumption].
    destruct (str_in (upper base) VOWEL_BASES);
      [|apply canonical_trimmed; assumption].
    destruct (str_of_int_text d) as [Hd1 Hd2].
    split.
    + intros E. apply app_eq_nil in E. destruct E as [_ E]. contradiction.
    + apply graphic_strip_fixed, Forall_app. split.
      * apply (Forall_range_weaken 0x30 0x5A); [lia..|assumption].
      * apply (Forall_range_weaken 0x2D 0x39); [lia..|assumption].
Qed.

Lemma convert_nonblank_trimmed_witness :
  ipa_phone_to_arpabet (py " ʘ ") None <> [] /\
  strip (ipa_phone_to_arpabet (py " ʘ ") None)
  = ipa_phone_to_arpabet (py " ʘ ") None.
Proof.
  apply convert_nonblank_trimmed. vm_compute. discriminate.
Defined.


(** Under a valid policy every result has one of four forms: the blank input
    itself; the stripped input, for a label that is not known; spn or sil;
    or one to three capitals, possibly followed by one of the digits 0, 1,
    2. *)
Theorem convert_output_forms (x : pystr) (s : option Z) :
  valid_policy s ->
  (strip x = [] /\ ipa_phone_to_arpabet x s = x) \/
  ipa_phone_to_arpabet x s = strip x \/
  In (ipa_phone_to_arpabet x s) noise_tokens \/
  (_ARPABET_RE_match (ipa_phone_to_arpabet x s) = true /\
   Forall (fun c => 0x30 <= c <= 0x5A) (ipa_phone_to_arpabet x s)).
Proof.
  intros Hs.
  destruct (convert_cases x s)
    as [[Hp Hr] | [(Hne & Hnoise & Hr) | [(Hne & Hnoise & Hlooks & Hr)
       | [(Hne & Hnoise & Hlooks & H1 & H2 & Hr)
       | (k & base & Hne & Hnoise & Hlooks & Hk & Hin & Hr)]]]];
    rewrite Hr.
  - left. split; [exact Hp | reflexivity].
  - right; right; left. apply str_in_In, Hnoise.
  - destruct (str_eqb (upper (strip x)) (py "SPN")) eqn:E.
    + right; right; left. left. reflexivity.
    + right; right; right.
      unfold _looks_like_arpabet in Hlooks.
      rewrite strip_idem, E in Hlooks. cbn [orb] in Hlooks.
      split; [exact Hlooks|].
      apply regex_chars; [exact Hlooks | apply upper_strip_last].
  - right; left. reflexivity.
  - right; right; right.
    assert (Hknoise : str_in k noise_tokens = false)
      by (destruct Hk as [-> | ->];
          [apply noise_before_lower; assumption | assumption]).
    destruct (table_values_canonical k base Hin Hknoise)
      as (Hre & Hrange & _ & _).
    destruct (endswith_any (upper base) [py "0"; py "1"; py "2"]);
      [split; assumption|].
    destruct s as [d|]; [|split; assumption].
    destruct (str_in (upper base) VOWEL_BASES) eqn:Ev; [|split; assumption].
    apply str_in_In in Ev. simpl in Ev.
    assert (Hd : d = 0 \/ d = 1 \/ d = 2)
      by (destruct Hs as [Hs|[Hs|[Hs|Hs]]]; inversion Hs; auto).
    repeat (destruct Ev as [<-|Ev]; [|]); try contradiction;
      destruct Hd as [-> | [-> | ->]];
      (split; [vm_compute; reflexivity | repeat constructor; lia]).
Qed.

Lemma convert_output_forms_witness :
  _ARPABET_RE_match (ipa_phone_to_arpabet (py "ɔɪ") (Some 2)) = true /\
  Forall (fun c => 0x30 <= c <= 0x5A) (ipa_phone_to_arpabet (py "ɔɪ") (Some 2)).
Proof.
  destruct (convert_output_forms (py "ɔɪ") (Some 2))
    as [[H _]|[H|[H|H]]].
  - right; right; right. reflexivity.
  - vm_compute in H. discriminate H.
  - vm_compute in H. discriminate H.
  - vm_compute in H. destruct H as [H|[H|[]]]; discriminate H.
  - exact H.
Defined.



(** *** The ARPABET test on ASCII text *)

Lemma toupper_AZ_eq (c : Z) : is_upper_AZ (ascii_toupper c) = is_ascii_letter c.
Proof.
  unfold is_upper_AZ, is_ascii_letter, is_upper_AZ, ascii_toupper.
  destruct ((0x61 <=? c) && (c <=? 0x7A)) eqn:E.
  - bool_prop.
    rewrite (proj2 (Z.leb_le 0x41 (c - 0x20))), (proj2 (Z.leb_le (c - 0x20) 0x5A)) by lia.
    rewrite orb_true_r. reflexivity.
  - rewrite orb_false_r. reflexivity.
Qed.

Lemma toupper_digit_eq (c : Z) : is_digit_02 (ascii_toupper c) = is_digit_02 c.
Proof.
  unfold is_digit_02, ascii_toupper.
  destruct ((0x61 <=? c) && (c <=? 0x7A)) eqn:E; [|reflexivity].
  bool_prop.
  rewrite (proj2 (Z.leb_gt (c - 0x20) 0x32)), (proj2 (Z.leb_gt c 0x32)) by lia.
  rewrite !andb_false_r. reflexivity.
Qed.

Lemma toupper_newline_eq (c : Z) : (ascii_toupper c =? 0x0A) = (c =? 0x0A).
Proof.
  unfold ascii_toupper.
  destruct ((0x61 <=? c) && (c <=? 0x7A)) eqn:E; [|reflexivity].
  bool_prop.
  rewrite (proj2 (Z.eqb_neq (c - 0x20) 0x0A)), (proj2 (Z.eqb_neq c 0x0A)) by lia.
  reflexivity.
Qed.

Lemma strip_Forall (P : Z -> Prop) (s : pystr) :
  Forall P s -> Forall P (strip s).
Proof.
  intros H. unfold strip.
  destruct (lstrip_suffix s) as [ws1 E1].
  destruct (rstrip_prefix (lstrip s)) as [ws2 E2].
  rewrite E1 in H. apply Forall_app in H. destruct H as [_ H].
  rewrite E2 in H. apply Forall_app in H. destruct H as [H _]. exact H.
Qed.

(** On ASCII text the test of line 125 is the test on the shape of the
    stripped text: one to three letters of either case, then possibly one of
    the digits 0, 1, 2. *)
Theorem looks_like_arpabet_ascii (s : pystr) :
  Forall (fun c => c < 0x80) s ->
  _looks_like_arpabet s = ascii_arpabet_like (strip s).
Proof.
  intros Hascii.
  pose proof (upper_strip_last s) as Hlast.
  unfold _looks_like_arpabet.
  apply (strip_Forall _ s) in Hascii.
  rewrite (upper_ascii _ Hascii) in Hlast |- *.
  set (p := strip s) in *. clearbody p. clear s Hascii.
  assert (Hspn : forall u, str_eqb u (py "SPN") || _ARPABET_RE_match u
                           = _ARPABET_RE_match u).
  { intros u. destruct (str_eqb u (py "SPN")) eqn:E; [|reflexivity].
    apply str_eqb_eq in E. subst u. reflexivity. }
  rewrite Hspn.
  destruct p as [|a [|b [|c [|d [|e [|f r]]]]]];
    unfold _ARPABET_RE_match, arpabet_tail, ascii_arpabet_like;
    cbn [map last] in Hlast |- *;
    try (apply Z.eqb_neq in Hlast; rewrite toupper_newline_eq in Hlast);
    rewrite ?toupper_AZ_eq, ?toupper_digit_eq, ?toupper_newline_eq, ?Hlast;
    solve [reflexivity | btauto].
Qed.

Lemma looks_like_arpabet_ascii_witness :
  _looks_like_arpabet (py " ow ") = ascii_arpabet_like (strip (py " ow ")).
Proof.
  apply looks_like_arpabet_ascii. repeat constructor.
Defined.

(** * Further properties of the document converter *)

Arguments ipa_phone_to_arpabet : simpl never.
Arguments py : simpl never.

Lemma dict_get_set {V : Type} (k : pystr) (v v0 : V) (d : list (pystr * V)) :
  dict_get k d = Some v0 -> dict_get k (dict_set k v d) = Some v.
Proof.
  induction d as [|[k1 v1] d IH]; simpl; [discriminate|].
  destruct (str_eqb k k1) eqn:E; simpl; rewrite E; [reflexivity | exact IH].
Qed.

Lemma dict_set_same {V : Type} (k : pystr) (v : V) (d : list (pystr * V)) :
  dict_get k d = Some v -> dict_set k v d = d.
Proof.
  induction d as [|[k1 v1] d IH]; simpl; [discriminate|].
  destruct (str_eqb k k1) eqn:E.
  - intros H; inversion H; reflexivity.
  - intros H. rewrite (IH H). reflexivity.
Qed.

Lemma dict_get_mutate {V : Type} (k : pystr) (f : V -> V)
  (d : list (pystr * V)) :
  dict_get k (dict_mutate k f d) = option_map f (dict_get k d).
Proof.
  induction d as [|[k1 v1] d IH]; simpl; [reflexivity|].
  destruct (str_eqb k k1) eqn:E; simpl; rewrite E; [reflexivity | exact IH].
Qed.

Lemma dict_has_mutate {V : Type} (k k' : pystr) (f : V -> V)
  (d : list (pystr * V)) :
  dict_has k' (dict_mutate k f d) = dict_has k' d.
Proof.
  unfold dict_has. induction d as [|[k1 v1] d IH]; simpl; [reflexivity|].
  destruct (str_eqb k k1); simpl; destruct (str_eqb k' k1); try reflexivity.
  exact IH.
Qed.

Lemma dict_has_map {V : Type} (k : pystr) (g : V -> V) (d : list (pystr * V)) :
  dict_has k (map (fun kv => (fst kv, g (snd kv))) d) = dict_has k d.
Proof.
  unfold dict_has. induction d as [|[k1 v1] d IH]; simpl; [reflexivity|].
  destruct (str_eqb k k1); [reflexivity | exact IH].
Qed.

Lemma dict_mutate_fixed {V : Type} (k : pystr) (f : V -> V)
  (d : list (pystr * V)) :
  (forall v, dict_get k d = Some v -> f v = v) -> dict_mutate k f d = d.
Proof.
  induction d as [|[k1 v1] d IH]; simpl; [reflexivity|].
  destruct (str_eqb k k1) eqn:E; intros H.
  - rewrite (H v1 eq_refl). reflexivity.
  - rewrite (IH H). reflexivity.
Qed.

Lemma dict_has_convert_per_file (k : pystr) (s : option Z)
  (d : list (pystr * json)) :
  dict_has k (convert_per_file s d) = dict_has k d.
Proof.
  unfold convert_per_file. destruct (dict_has (py "phones") d);
    [apply dict_has_mutate | reflexivity].
Qed.

(** **** Labels after conversion *)

Lemma interval_text_convert (it : json) (s : option Z) :
  interval_text (convert_interval it s)
  = option_map (fun t => ipa_phone_to_arpabet t s) (interval_text it).
Proof.
  unfold convert_interval, interval_text.
  destruct it as [| | | | |l|d]; try reflexivity.
  destruct (dict_get (py "text") d) as [[| | | |t| |]|] eqn:E; rewrite ?E;
    try reflexivity.
  rewrite (dict_get_set _ _ _ _ E). reflexivity.
Qed.

Lemma container_texts_convert (c : json) (s : option Z) :
  container_texts (_convert_interval_container c s)
  = map (fun t => ipa_phone_to_arpabet t s) (container_texts c).
Proof.
  unfold _convert_interval_container, container_texts.
  destruct c as [| | | | |l|d]; try reflexivity.
  - induction l as [|it l IH]; simpl; [reflexivity|].
    rewrite map_app, <- IH, interval_text_convert.
    destruct (interval_text it); reflexivity.
  - induction d as [|[k it] d IH]; simpl; [reflexivity|].
    rewrite map_app, <- IH, interval_text_convert.
    destruct (interval_text it); reflexivity.
Qed.

Lemma per_file_texts_convert (d : list (pystr * json)) (s : option Z) :
  per_file_texts (convert_per_file s d)
  = map (fun t => ipa_phone_to_arpabet t s) (per_file_texts d).
Proof.
  unfold convert_per_file, per_file_texts, dict_has.
  destruct (dict_get (py "phones") d) as [c|] eqn:E; [|rewrite E; reflexivity].
  rewrite dict_get_mutate, E. simpl. apply container_texts_convert.
Qed.

Lemma phone_texts_convert (obj : json) (s : option Z) :
  phone_texts (convert_json_obj obj s)
  = map (fun t => ipa_phone_to_arpabet t s) (phone_texts obj).
Proof.
  unfold convert_json_obj, phone_texts.
  destruct obj as [| | | | |l|d]; try reflexivity.
  destruct (dict_has (py "words") d && dict_has (py "phones") d) eqn:E.
  - rewrite !dict_has_convert_per_file, E. apply per_file_texts_convert.
  - rewrite !dict_has_map, E.
    induction d as [|[k v] d' IH] in |- *; simpl; [reflexivity|].
    rewrite map_app, <- IH. f_equal.
    unfold convert_if_dict. destruct v as [| | | | |l|pf]; try reflexivity.
    apply per_file_texts_convert.
Qed.

(** **** Documents whose labels are fixed points *)

Lemma convert_interval_fixed (it : json) (s : option Z) :
  Forall (fun t => ipa_phone_to_arpabet t s = t) (option_list (interval_text it)) ->
  convert_interval it s = it.
Proof.
  unfold convert_interval, interval_text.
  destruct it as [| | | | |l|d]; try reflexivity.
  destruct (dict_get (py "text") d) as [[| | | |t| |]|] eqn:E; try reflexivity.
  simpl. intros H. inversion H as [|? ? Ht _]; subst.
  rewrite Ht, (dict_set_same _ _ _ E). reflexivity.
Qed.

Lemma convert_container_fixed (c : json) (s : option Z) :
  Forall (fun t => ipa_phone_to_arpabet t s = t) (container_texts c) ->
  _convert_interval_container c s = c.
Proof.
  unfold _convert_interval_container, container_texts.
  destruct c as [| | | | |l|d]; try reflexivity.
  - intros H. f_equal. induction l as [|it l IH]; simpl in *; [reflexivity|].
    apply Forall_app in H. destruct H as [H1 H2].
    rewrite (convert_interval_fixed it s H1), (IH H2). reflexivity.
  - intros H. f_equal. induction d as [|[k it] d IH]; simpl in *; [reflexivity|].
    apply Forall_app in H. destruct H as [H1 H2].
    rewrite (convert_interval_fixed it s H1), (IH H2). reflexivity.
Qed.

Lemma convert_per_file_fixed (d : list (pystr * json)) (s : option Z) :
  Forall (fun t => ipa_phone_to_arpabet t s = t) (per_file_texts d) ->
  convert_per_file s d = d.
Proof.
  unfold convert_per_file, per_file_texts. intros H.
  destruct (dict_has (py "phones") d); [|reflexivity].
  apply dict_mutate_fixed. intros c E. rewrite E in H.
  apply convert_container_fixed, H.
Qed.

Lemma convert_json_obj_fixed (obj : json) (s : option Z) :
  Forall (fun t => ipa_phone_to_arpabet t s = t) (phone_texts obj) ->
  convert_json_obj obj s = obj.
Proof.
  unfold convert_json_obj, phone_texts.
  destruct obj as [| | | | |l|d]; try reflexivity.
  destruct (dict_has (py "words") d && dict_has (py "phones") d).
  - intros H. rewrite (convert_per_file_fixed d s H). reflexivity.
  - intros H. f_equal. induction d as [|[k v] d IH]; simpl in *; [reflexivity|].
    apply Forall_app in H. destruct H as [H1 H2]. rewrite (IH H2).
    unfold convert_if_dict. destruct v as [| | | | |l|pf]; try reflexivity.
    rewrite (convert_per_file_fixed pf s H1). reflexivity.
Qed.

(** The phone labels of the converted document are the mapped phone labels
    of the document, one for one and in the same order. *)
Theorem phone_texts_converted (obj : json) (s : option Z) :
  phone_texts (convert_json_obj obj s)
  = map (fun t => ipa_phone_to_arpabet t s) (phone_texts obj).
Proof. apply phone_texts_convert. Qed.

(** A document all of whose phone labels are left as they are by the mapper
    is returned as it is; so is a value with no phone label at all. *)
Theorem convert_json_obj_unchanged (obj : json) (s : option Z) :
  Forall (fun t => ipa_phone_to_arpabet t s = t) (phone_texts obj) ->
  convert_json_obj obj s = obj.
Proof. apply convert_json_obj_fixed. Qed.

Lemma convert_json_obj_unchanged_witness :
  let doc := JDict [(py "words", JList []);
                    (py "phones",
                     JList [JDict [(py "text", JStr (py "AY1"));
                                   (py "xmin", JInt 0)];
                            JDict [(py "text", JStr (py "spn"))];
                            JDict [(py "xmin", JInt 3)]])] in
  convert_json_obj doc (Some 2) = doc.
Proof.
  intros doc. apply convert_json_obj_unchanged.
  set (labels := phone_texts doc). vm_compute in labels. subst labels.
  repeat constructor.
Defined.

(** Converting a converted document changes nothing, provided no label of
    the document is mapped to SIL. *)
Theorem convert_json_obj_idempotent (obj : json) (s : option Z) :
  Forall (fun t => ipa_phone_to_arpabet t s <> py "SIL") (phone_texts obj) ->
  convert_json_obj (convert_json_obj obj s) s = convert_json_obj obj s.
Proof.
  intros H. apply convert_json_obj_fixed. rewrite phone_texts_convert.
  apply Forall_map. eapply Forall_impl; [|exact H].
  intros t Ht. apply convert_fixed_point, Ht.
Qed.

Lemma convert_json_obj_idempotent_witness :
  let doc := JDict [(py "a.wav",
                     JDict [(py "phones",
                             JDict [(py "0", JDict [(py "text", JStr (py "ɔ"))]);
                                    (py "1", JDict [(py "text", JStr (py " t"))])])])] in
  convert_json_obj (convert_json_obj doc (Some 2)) (Some 2)
  = convert_json_obj doc (Some 2).
Proof.
  intros doc. apply convert_json_obj_idempotent.
  set (labels := phone_texts doc). vm_compute in labels. subst labels.
  repeat constructor; vm_compute; discriminate.
Defined.

(** * Paths *)

Lemma split_on_no_sep (c : Z) (s : pystr) :
  Forall (fun x => ~ In c x) (split_on c s).
Proof.
  induction s as [|x r IH]; simpl; [repeat constructor; auto|].
  destruct (x =? c) eqn:E.
  - constructor; [intros []|exact IH].
  - destruct (split_on c r) as [|h t]; [repeat constructor|].
    + intros [H|[]]. apply Z.eqb_neq in E. congruence.
    + inversion IH as [|? ? Hh Ht]; subst. constructor; [|exact Ht].
      intros [H|H]; [apply Z.eqb_neq in E; congruence | contradiction].
Qed.

Lemma split_on_without (c : Z) (s : pystr) :
  ~ In c s -> split_on c s = [s].
Proof.
  induction s as [|x r IH]; simpl; [reflexivity|]. intros H.
  rewrite (proj2 (Z.eqb_neq x c)) by (intros ->; apply H; left; reflexivity).
  rewrite IH by (intros Hin; apply H; right; exact Hin). reflexivity.
Qed.

Lemma is_kept_valid (x : pystr) :
  is_kept x = true <-> x <> [] /\ x <> py ".".
Proof.
  unfold is_kept. rewrite andb_true_iff, !negb_true_iff, !str_eqb_neq. tauto.
Qed.

Lemma kept_names_valid (rel : pystr) :
  Forall valid_name (filter is_kept (split_on sep rel)).
Proof.
  apply Forall_forall. intros x Hx. apply filter_In in Hx.
  destruct Hx as [Hin Hk]. apply is_kept_valid in Hk. destruct Hk as [H1 H2].
  repeat split; try assumption.
  pose proof (split_on_no_sep sep rel) as H. rewrite Forall_forall in H.
  apply H, Hin.
Qed.

Lemma splitroot_root (part : pystr) :
  fst (splitroot part) = [] \/ fst (splitroot part) = [sep] \/
  fst (splitroot part) = [sep; sep].
Proof.
  unfold splitroot. destruct part as [|c r]; [left; reflexivity|].
  destruct (c =? sep); [|left; reflexivity].
  destruct (_ =? 2)%nat; simpl; auto.
Qed.

(** The constructor gives a root that is empty, one slash or two, and names
    that are not empty, are not the dot and hold no slash. *)
Lemma parse_parts_wf (l : list pystr) : wf_path (parse_parts l).
Proof.
  induction l as [|part rest IH]; simpl.
  - split; [left; reflexivity | constructor].
  - destruct (negb (is_empty (root (parse_parts rest)))); [exact IH|].
    pose proof (splitroot_root part) as Hr.
    destruct (splitroot part) as [rt rel]. simpl in Hr.
    split; [exact Hr|]. simpl. apply Forall_app. split.
    + apply kept_names_valid.
    + apply IH.
Qed.

Lemma splitroot_valid_name (x : pystr) :
  valid_name x -> splitroot x = ([], x).
Proof.
  intros (Hne & _ & Hsep). unfold splitroot.
  destruct x as [|c r]; [reflexivity|].
  rewrite (proj2 (Z.eqb_neq c sep)); [reflexivity|].
  intros ->. apply Hsep. left; reflexivity.
Qed.

Lemma parse_valid_names (l : list pystr) :
  Forall valid_name l -> parse_parts l = {| root := []; names := l |}.
Proof.
  induction 1 as [|x l Hx _ IH]; simpl; [reflexivity|].
  rewrite IH. simpl. rewrite (splitroot_valid_name x Hx).
  destruct Hx as (Hne & Hdot & Hsep).
  rewrite (split_on_without sep x Hsep). simpl.
  rewrite (proj2 (is_kept_valid x)) by (split; assumption).
  reflexivity.
Qed.

(** Building a path again from its parts gives the path. *)
Lemma parse_parts_parts (p : PurePath) :
  wf_path p -> parse_parts (parts p) = p.
Proof.
  destruct p as [rt nm]. intros [Hr Hn]. simpl in Hr, Hn. unfold parts. simpl.
  destruct Hr as [-> | [-> | ->]]; simpl;
    rewrite (parse_valid_names nm Hn); reflexivity.
Qed.

Lemma strs_eqb_refl (l : list pystr) : strs_eqb l l = true.
Proof.
  induction l as [|x l IH]; simpl; [reflexivity|].
  rewrite str_eqb_refl, IH. reflexivity.
Qed.

Lemma firstn_prefix {A : Type} (a b : list A) :
  firstn (List.length a) (a ++ b) = a.
Proof. induction a as [|x a IH]; simpl; [reflexivity | rewrite IH; reflexivity]. Qed.

Lemma skipn_prefix {A : Type} (a b : list A) :
  skipn (List.length a) (a ++ b) = b.
Proof. induction a as [|x a IH]; simpl; [reflexivity | exact IH]. Qed.

Lemma relative_to_child (in_path : PurePath) (rel : list pystr) :
  wf_path in_path ->
  relative_to (make_child_relpath in_path rel) in_path
  = Some {| root := []; names := rel |}.
Proof.
  intros Hwf. unfold relative_to. rewrite (parse_parts_parts _ Hwf).
  destruct in_path as [rt nm]. destruct Hwf as [Hr Hn].
  unfold make_child_relpath. cbn [root names] in *.
  destruct Hr as [-> | [-> | ->]]; cbn [is_empty].
  - rewrite firstn_prefix, skipn_prefix, strs_eqb_refl.
    destruct (List.length nm) as [|[|n]]; reflexivity.
  - change ([] :: [sep] :: nm ++ rel) with (([] :: [sep] :: nm) ++ rel).
    rewrite firstn_prefix, skipn_prefix, strs_eqb_refl. reflexivity.
  - change ([] :: [sep; sep] :: nm ++ rel)
      with (([] :: [sep; sep] :: nm) ++ rel).
    rewrite firstn_prefix, skipn_prefix, strs_eqb_refl. reflexivity.
Qed.

(** Directory mode mirrors the tree: a file found under the input directory
    at some names is written under the output directory at the same names;
    so with the input directory as output directory each file is written
    over itself. *)
Theorem out_file_mirrors_in_file (in_path out_dir : PurePath)
  (rel : list pystr) :
  wf_path in_path -> Forall valid_name rel ->
  out_file_for in_path out_dir (make_child_relpath in_path rel)
  = Some (make_child_relpath out_dir rel) /\
  out_file_for in_path in_path (make_child_relpath in_path rel)
  = Some (make_child_relpath in_path rel).
Proof.
  intros Hwf Hrel.
  assert (H : forall d, out_file_for in_path d (make_child_relpath in_path rel)
                        = Some (make_child_relpath d rel)).
  { intros d. unfold out_file_for. rewrite (relative_to_child _ _ Hwf).
    unfold truediv, parts. simpl. rewrite (parse_valid_names rel Hrel).
    reflexivity. }
  split; apply H.
Qed.

Lemma out_file_mirrors_in_file_witness :
  out_file_for (parse_parts [py "/data/in"]) (parse_parts [py "out"])
    (make_child_relpath (parse_parts [py "/data/in"]) [py "a"; py "b.json"])
  = Some (parse_parts [py "out/a/b.json"]).
Proof.
  refine (eq_trans (proj1 (out_file_mirrors_in_file
            (parse_parts [py "/data/in"]) (parse_parts [py "out"])
            [py "a"; py "b.json"] (parse_parts_wf _) _)) _).
  - repeat constructor; try discriminate;
      vm_compute; intros H; repeat (destruct H as [H|H]; [discriminate H|]);
      exact H.
  - vm_compute. reflexivity.
Defined.

(** *** The default output paths *)

Lemma rfind_from_spec (c : Z) (s : pystr) (k : nat) (found : option nat)
  (i : nat) :
  rfind_from c s k found = Some i ->
  (found = Some i /\ ~ In c s) \/
  (k <= i /\ exists rest, skipn (i - k) s = c :: rest /\ ~ In c rest)%nat.
Proof.
  revert k found. induction s as [|x r IH]; intros k found; simpl.
  - intros ->. left. split; [reflexivity | intros []].
  - intros H. apply IH in H. destruct H as [[Hf Hn] | (Hk & rest & Hs & Hn)].
    + destruct (x =? c) eqn:E.
      * apply Z.eqb_eq in E. subst x. inversion Hf; subst i. right.
        split; [lia|]. exists r. rewrite Nat.sub_diag. split; [reflexivity|exact Hn].
      * left. split; [exact Hf|]. intros [H|H]; [|contradiction].
        apply Z.eqb_neq in E. congruence.
    + right. split; [lia|]. exists rest. split; [|exact Hn].
      replace (i - k)%nat with (S (i - S k)) by lia. exact Hs.
Qed.

(** A suffix starts with the last dot of the name. *)
Lemma suffix_of_spec (nm : pystr) :
  suffix_of nm = [] \/
  exists i rest, suffix_of nm = skipn i nm /\ (i <= List.length nm)%nat /\
                 skipn i nm = 0x2E :: rest /\ ~ In 0x2E rest.
Proof.
  unfold suffix_of, rfind. destruct (rfind_from 0x2E nm 0 None) as [i|] eqn:E;
    [|left; reflexivity].
  destruct ((0 <? i)%nat && (i <? List.length nm - 1)%nat) eqn:Hi;
    [|left; reflexivity].
  right. apply rfind_from_spec in E.
  destruct E as [[E _] | (_ & rest & Hs & Hn)]; [discriminate E|].
  rewrite Nat.sub_0_r in Hs. exists i, rest. repeat split; try assumption.
  apply andb_true_iff in Hi. destruct Hi as [_ Hi].
  apply Nat.ltb_lt in Hi. lia.
Qed.

Lemma endswith_app (a b : pystr) : endswith (a ++ b) b = true.
Proof.
  unfold endswith. rewrite length_app.
  rewrite (proj2 (Nat.leb_le _ _)) by lia.
  replace (List.length a + List.length b - List.length b)%nat
    with (List.length a) by lia.
  rewrite skipn_prefix. apply str_eqb_refl.
Qed.

Lemma names_last (p : PurePath) :
  name p <> [] -> names p = removelast (names p) ++ [name p].
Proof.
  unfold name. intros H. apply app_removelast_last.
  intros E. rewrite E in H. apply H. reflexivity.
Qed.

(** Without [--inplace] and [--out] the converted file is written beside the
    input file, under a name that ends with .arpa.json and is never the name
    of the input file; a path without a name has no default output file. *)
Theorem default_outfile_beside_input (in_file : PurePath) :
  (name in_file = [] -> _default_outfile_for_file in_file = None) /\
  (name in_file <> [] ->
   exists out_file,
     _default_outfile_for_file in_file = Some out_file /\
     out_file <> in_file /\
     parent out_file = parent in_file /\
     endswith (name out_file) (py ".arpa.json") = true).
Proof.
  unfold _default_outfile_for_file, with_suffix.
  change (existsb (Z.eqb sep) (py ".arpa.json")) with false.
  change ((negb (is_empty (py ".arpa.json")) &&
           negb (endswith (firstn 1 (py ".arpa.json")) (py "."))) ||
          str_eqb (py ".arpa.json") (py ".")) with false.
  cbv iota. split.
  - intros ->. reflexivity.
  - intros Hne.
    assert (Hemp : is_empty (name in_file) = false)
      by (destruct (name in_file); [contradiction | reflexivity]).
    rewrite Hemp.
    set (nm' := if is_empty (suffix_of (name in_file))
                then name in_file ++ py ".arpa.json"
                else firstn (List.length (name in_file)
                             - List.length (suffix_of (name in_file)))
                            (name in_file) ++ py ".arpa.json").
    assert (Hnm : nm' <> name in_file /\ endswith nm' (py ".arpa.json") = true).
    { subst nm'. destruct (suffix_of_spec (name in_file))
        as [E | (i & rest & E & Hi & Hs & Hn)]; rewrite E.
      - cbn [is_empty]. split; [|apply endswith_app].
        intros H. apply (f_equal (@List.length Z)) in H.
        rewrite length_app in H.
        change (List.length (py ".arpa.json")) with 10%nat in H. lia.
      - rewrite Hs. cbn [is_empty]. rewrite <- Hs. split; [|apply endswith_app].
        rewrite length_skipn.
        replace (List.length (name in_file) - (List.length (name in_file) - i))%nat
          with i by lia.
        intros H. rewrite <- (firstn_skipn i (name in_file)) in H at 2.
        apply app_inv_head in H. rewrite Hs in H.
        inversion H as [Hrest]. apply Hn. rewrite <- Hrest.
        vm_compute. auto 10. }
    destruct Hnm as [Hneq Hend].
    eexists. split; [reflexivity|]. repeat split.
    + intros H. apply (f_equal names) in H. cbn [names] in H.
      rewrite (names_last in_file Hne) in H at 2.
      apply app_inj_tail in H. destruct H as [_ H]. contradiction.
    + unfold parent. cbn [root names]. rewrite removelast_last. reflexivity.
    + unfold name at 1. cbn [names]. rewrite last_last. exact Hend.
Qed.

Lemma default_outfile_beside_input_witness :
  exists out_file,
    _default_outfile_for_file (parse_parts [py "data/x.arpa.json"])
      = Some out_file /\
    out_file <> parse_parts [py "data/x.arpa.json"] /\
    parent out_file = parent (parse_parts [py "data/x.arpa.json"]) /\
    endswith (name out_file) (py ".arpa.json") = true.
Proof.
  apply (proj2 (default_outfile_beside_input
                  (parse_parts [py "data/x.arpa.json"]))).
  vm_compute. discriminate.
Defined.





(** * The run after the validation *)

Section RunProperties.

Variable world : Type.
Variable path_exists : world -> PurePath -> pystr + bool.
Variable path_is_file : world -> PurePath -> pystr + bool.
Variable path_is_dir : world -> PurePath -> pystr + bool.
Variable _read_json : world -> PurePath -> pystr + json.
Variable _write_json : PurePath -> json -> world -> world * option pystr.
Variable os_expanduser : pystr -> pystr.

Local Abbreviation convert_files' :=
  (convert_files world path_is_file _read_json _write_json).
Local Abbreviation convert_paths' :=
  (convert_paths world path_exists path_is_file path_is_dir _read_json
     _write_json os_expanduser).
Local Abbreviation run' :=
  (run world path_exists path_is_file path_is_dir _read_json _write_json
     os_expanduser).

(** The loop ends by returning 0 or by an exception that is not
    [SystemExit]. *)
Lemma convert_files_outcome (produced : list (list pystr))
  (in_path out_dir : PurePath) (policy : option Z) (w : world) :
  snd (convert_files' produced in_path out_dir policy w) = Returned 0 \/
  exists exn, snd (convert_files' produced in_path out_dir policy w)
              = Uncaught exn.
Proof.
  revert w. induction produced as [|rel rest IH]; intros w; simpl.
  - left; reflexivity.
  - destruct (_iter_json_files_yields world path_is_file w _) as [exn|[|]];
      [right; eexists; reflexivity | | apply IH].
    destruct (out_file_for in_path out_dir _) as [out_file|];
      [|right; eexists; reflexivity].
    destruct (convert_file world _read_json _write_json _ _ policy w)
      as [w' [exn|]]; [right; eexists; reflexivity | apply IH].
Qed.

Lemma convert_paths_exit_clean (produced : list (list pystr)) (args : Args)
  (in_path : PurePath) (policy : option Z) (w : world) (message : pystr) :
  snd (convert_paths' produced args in_path policy w) = SystemExit message ->
  fst (convert_paths' produced args in_path policy w) = w.
Proof.
  unfold convert_paths, file_mode, directory_mode.
  destruct (path_exists w in_path) as [exn|[|]]; try reflexivity.
  destruct (path_is_file w in_path) as [exn|[|]]; try reflexivity.
  - destruct (out_dir args); [reflexivity|].
    destruct (file_out_path os_expanduser args in_path) as [exn|out_path];
      [reflexivity|].
    destruct (convert_file world _read_json _write_json _ _ policy w)
      as [w' [exn|]]; discriminate.
  - destruct (path_is_dir w in_path) as [exn|[|]]; try reflexivity.
    destruct (out args); [reflexivity|].
    destruct (dir_out_dir os_expanduser args in_path) as [exn|out_directory];
      [reflexivity|].
    intros H.
    destruct (convert_files_outcome produced in_path out_directory policy w)
      as [E|[exn E]]; rewrite E in H; discriminate H.
Qed.

(** A run that ends with [SystemExit] (a bad stress value, a missing input
    path, [--out_dir] with a file, [--out] with a directory, an input that is
    neither file nor directory) has written nothing: the file system is as
    it was. *)
Theorem usage_errors_write_nothing (produced : list (list pystr))
  (args : Args) (w : world) (message : pystr) :
  snd (run' produced args w) = SystemExit message ->
  fst (run' produced args w) = w.
Proof.
  unfold run, main.
  destruct (Path_expanduser os_expanduser (input args)) as [in_path|];
    [|reflexivity].
  destruct (parse_default_stress (default_stress args)) as [msg|policy];
    [reflexivity|].
  apply convert_paths_exit_clean.
Qed.

Lemma has_dot_part_child (in_path : PurePath) (rel : list pystr) :
  has_dot_part in_path = true ->
  has_dot_part (make_child_relpath in_path rel) = true.
Proof.
  unfold has_dot_part, make_child_relpath, parts. cbn [root names].
  destruct (is_empty (root in_path)).
  - rewrite existsb_app. intros ->. reflexivity.
  - change (root in_path :: names in_path ++ rel)
      with ((root in_path :: names in_path) ++ rel).
    rewrite existsb_app. intros ->. reflexivity.
Qed.

Lemma convert_files_dotted (produced : list (list pystr))
  (in_path out_dir : PurePath) (policy : option Z) (w : world) :
  has_dot_part in_path = true ->
  convert_files' produced in_path out_dir policy w = (w, Returned 0).
Proof.
  intros Hdot. induction produced as [|rel rest IH]; simpl; [reflexivity|].
  unfold _iter_json_files_yields.
  rewrite (has_dot_part_child in_path rel Hdot). exact IH.
Qed.

(** When a part of the path of the input directory starts with a dot (as in
    .cache/x, .. or ../data), line 243 skips every file under it: nothing is
    written and, once the output directory is known, the run returns 0. *)
Theorem dotted_input_directory_skipped (produced : list (list pystr))
  (args : Args) (in_path : PurePath) (policy : option Z) (w : world) :
  has_dot_part in_path = true ->
  path_exists w in_path = inr true ->
  path_is_file w in_path = inr false ->
  path_is_dir w in_path = inr true ->
  out args = None ->
  fst (convert_paths' produced args in_path policy w) = w /\
  (forall out_directory,
      dir_out_dir os_expanduser args in_path = inr out_directory ->
      convert_paths' produced args in_path policy w = (w, Returned 0)).
Proof.
  intros Hdot Hex Hfile Hdir Hout. unfold convert_paths, directory_mode.
  rewrite Hex, Hfile, Hdir, Hout.
  destruct (dir_out_dir os_expanduser args in_path) as [exn|d].
  - split; [reflexivity|]. intros ? H. discriminate H.
  - rewrite (convert_files_dotted produced in_path d policy w Hdot).
    split; [reflexivity|]. intros ? _. reflexivity.
Qed.

(** The files of a directory are converted one after the other: the run over
    a walk in two parts is the run over the first part and then, if that
    returned, the run over the second part in the file system it left.  When
    a read or a write fails the run ends there: what was written before
    stays, and no later file is touched. *)
Theorem convert_files_sequential (first second : list (list pystr))
  (in_path out_dir : PurePath) (policy : option Z) (w : world) :
  convert_files' (first ++ second) in_path out_dir policy w
  = match convert_files' first in_path out_dir policy w with
    | (w1, Returned _) => convert_files' second in_path out_dir policy w1
    | (w1, stopped) => (w1, stopped)
    end.
Proof.
  revert w. induction first as [|rel rest IH]; intros w; simpl; [reflexivity|].
  destruct (_iter_json_files_yields world path_is_file w _) as [exn|[|]];
    [reflexivity | | apply IH].
  destruct (out_file_for in_path out_dir _) as [out_file|]; [|reflexivity].
  destruct (convert_file world _read_json _write_json _ _ policy w)
    as [w' [exn|]]; [reflexivity | apply IH].
Qed.

End RunProperties.

Lemma dotted_input_directory_skipped_witness :
  let args := {| input := py "../data"; out := None; out_dir := None;
                 inplace := false; default_stress := py "1" |} in
  convert_paths unit (fun _ _ => inr true) (fun _ _ => inr false) (fun _ _ => inr true)
    (fun _ _ => inr JNull) (fun _ _ w => (w, None)) (fun s => s)
    [[py "a.json"]; [py "b"; py "c.json"]] args (parse_parts [py "../data"])
    (Some 1) tt
  = (tt, Returned 0).
Proof.
  intros args.
  apply (proj2 (dotted_input_directory_skipped unit (fun _ _ => inr true)
                  (fun _ _ => inr false) (fun _ _ => inr true)
                  (fun _ _ => inr JNull)
                  (fun _ _ w => (w, None)) (fun s => s)
                  [[py "a.json"]; [py "b"; py "c.json"]] args
                  (parse_parts [py "../data"]) (Some 1) tt
                  eq_refl eq_refl eq_refl eq_refl eq_refl)
          (_default_outdir_for_dir (parse_parts [py "../data"]))).
  reflexivity.
Defined.

Lemma usage_errors_write_nothing_witness :
  let args := {| input := py "corpus"; out := Some (py "x.json");
                 out_dir := None; inplace := false;
                 default_stress := py "1" |} in
  fst (run (list nat) (fun _ _ => inr true) (fun _ _ => inr false) (fun _ _ => inr true)
         (fun _ _ => inr JNull) (fun _ _ w => (1%nat :: w, None)) (fun s => s)
         [[py "a.json"]] args []) = [].
Proof.
  intros args.
  apply (usage_errors_write_nothing (list nat) (fun _ _ => inr true)
           (fun _ _ => inr false) (fun _ _ => inr true) (fun _ _ => inr JNull)
           (fun _ _ w => (1%nat :: w, None)) (fun s => s) [[py "a.json"]]
           args [] (py "--out is only valid when input is a file")).
  vm_compute. reflexivity.
Defined.
